(** * EV station planning backend: a shallow embedding and its properties

    The development follows [backend/model_loader.py] (class
    [EVStationPredictor]) and the batch and single-record endpoints of
    [backend/app.py].

    Modelling conventions.
    - A JSON value received by the service is a [Py.value].  Numbers are
      exact rationals ([Q]); Python's [int] and [float] are not told apart,
      and every arithmetic step is taken without rounding.  On the fallback
      path all intermediate figures are small integers, for which binary
      floating point is exact as well.
    - A Python [dict] with string keys is a [gmap string value].
    - An exception is a value of [Py.exn]; code that may raise returns
      [Py.exc A], and [try ... except Exception] is [Py.try_except].
    - [print], logging, time stamps and the derived identifiers
      ([batch_id], [analysis_id]) carry no information used by any other
      field and are left out. *)

From Stdlib Require Import QArith Qminmax Qround Lqa ZArith Lia.
From stdpp Require Import gmap strings list fin_maps pretty.

Set Warnings "-register-all".
#[local] Open Scope Q_scope.

(** ** The fragment of Python the service relies on *)

Module Py.

Inductive value :=
| VNone
| VBool (b : bool)
| VNum (q : Q)
| VStr (s : string)
| VList (l : list value)
| VDict (d : gmap string value).

Inductive exn :=
| TypeError
| AttributeError
| KeyError (k : string)
| NotFittedError
| ModelError.

Inductive exc (A : Type) :=
| Ok (a : A)
| Raise (e : exn).
Arguments Ok {A} a.
Arguments Raise {A} e.

#[global] Instance exc_ret : MRet exc := fun A a => Ok a.
#[global] Instance exc_bind : MBind exc := fun A B k c =>
  match c with
  | Ok a => k a
  | Raise e => Raise e
  end.

(** [try: c except Exception as e: h e] *)
Definition try_except {A} (c : exc A) (h : exn -> exc A) : exc A :=
  match c with
  | Ok a => Ok a
  | Raise e => h e
  end.

(** Comparisons on rationals as booleans, through [Qcompare]. *)
Definition Qltb (x y : Q) : bool :=
  match x ?= y with Lt => true | _ => false end.
Definition Qleb (x y : Q) : bool :=
  match x ?= y with Gt => false | _ => true end.

(** [min(a, b)] returns [b] only when [b < a]; [max(a, b)] returns [b]
    only when [b > a]. *)
Definition builtin_min (a b : Q) : Q := if Qltb b a then b else a.
Definition builtin_max (a b : Q) : Q := if Qltb a b then b else a.

(** Truth value of an object in a condition. *)
Definition truthy (v : value) : bool :=
  match v with
  | VNone => false
  | VBool b => b
  | VNum q => negb (Qeq_bool q 0)
  | VStr s => negb (String.eqb s "")
  | VList l => match l with [] => false | _ :: _ => true end
  | VDict d => negb (Nat.eqb (size d) 0)
  end.

(** The number an operand stands for in arithmetic and in an ordering
    comparison with a number; [bool] is a subtype of [int].  Every other
    type raises [TypeError] there. *)
Definition as_number (v : value) : option Q :=
  match v with
  | VBool b => Some (if b then 1 else 0)
  | VNum q => Some q
  | _ => None
  end.

Definition number (v : value) : exc Q :=
  match as_number v with
  | Some q => Ok q
  | None => Raise TypeError
  end.

(** [v / k] for a non-zero numeric literal [k]. *)
Definition truediv (v : value) (k : Q) : exc value :=
  q ← number v; mret (VNum (q / k)).

(** [v > k] and [v < k] for a numeric literal [k]. *)
Definition gt (v : value) (k : Q) : exc bool :=
  q ← number v; mret (Qltb k q).
Definition lt (v : value) (k : Q) : exc bool :=
  q ← number v; mret (Qltb q k).

(** [int(x)] on a finite number truncates towards zero. *)
Definition int (q : Q) : Z := Z.quot (Qnum q) (Z.pos (Qden q)).

(** [d.get(k, dflt)] on a dict. *)
Definition get (d : gmap string value) (k : string) (dflt : value) : value :=
  default dflt (d !! k).

(** [o.get(k, dflt)] on an arbitrary object: only dicts have [get]. *)
Definition obj_get (o : value) (k : string) (dflt : value) : exc value :=
  match o with
  | VDict d => Ok (get d k dflt)
  | _ => Raise AttributeError
  end.

Definition is_str (k : string) (v : value) : bool :=
  match v with
  | VStr s => String.eqb s k
  | _ => false
  end.

(** [k in o] for a string [k]: key membership in a dict, element
    membership in a list, substring test in a string. *)
Definition contains (o : value) (k : string) : exc bool :=
  match o with
  | VDict d => Ok (bool_decide (is_Some (d !! k)))
  | VList l => Ok (existsb (is_str k) l)
  | VStr s => Ok (match String.index 0 k s with Some _ => true | None => false end)
  | _ => Raise TypeError
  end.

(** [o[k]] for a string [k]. *)
Definition getitem (o : value) (k : string) : exc value :=
  match o with
  | VDict d => match d !! k with Some v => Ok v | None => Raise (KeyError k) end
  | _ => Raise TypeError
  end.

Fixpoint chars (s : string) : list value :=
  match s with
  | EmptyString => []
  | String c s' => VStr (String c EmptyString) :: chars s'
  end.

(** The sequence [enumerate(o)] walks through; [len(o)] is its length
    for these three types.  (Strings are iterated byte-wise here.) *)
Definition iter (o : value) : exc (list value) :=
  match o with
  | VList l => Ok l
  | VDict d => Ok ((fun kv => VStr kv.1) <$> map_to_list d)
  | VStr s => Ok (chars s)
  | _ => Raise TypeError
  end.

End Py.

Import Py.

(** ** [model_loader.py]: the predictor *)

(** *** The model registry [self.models] *)

(** A trained artifact is known only through what its [predict] answers on
    the row of feature values; the call may raise. *)
Inductive roi_model :=
| RoiFallback                                   (* the string 'fallback' *)
| RoiBooster (predict : list value -> exc Q).   (* an [xgb.Booster] *)

Inductive cluster_model :=
| KMeansUnfitted                                (* [KMeans(n_clusters=4, random_state=42)] *)
| Unpickled (predict : list value -> exc Z).    (* whatever [pickle.load] gave *)

(** [self.models]: a dict with at most the keys ['roi_predictor'] and
    ['location_cluster']. *)
Record EVStationPredictor := {
  roi_predictor : option roi_model;
  location_cluster : option cluster_model
}.

(** What [os.path.exists] and the loader find for one artifact file. *)
Inductive artifact (M : Type) :=
| Absent
| Corrupt
| Loadable (m : M).
Arguments Absent {M}.
Arguments Corrupt {M}.
Arguments Loadable {M} m.

Definition create_fallback_roi_model (self : EVStationPredictor) : EVStationPredictor :=
  {| roi_predictor := Some RoiFallback;
     location_cluster := location_cluster self |}.

Definition create_fallback_cluster_model (self : EVStationPredictor) : EVStationPredictor :=
  {| roi_predictor := roi_predictor self;
     location_cluster := Some KMeansUnfitted |}.

(** [sklearn]'s [KMeans.predict] starts with [check_is_fitted], which raises
    [NotFittedError] on an estimator that was never fitted. *)
Definition cluster_model_predict (m : cluster_model) (row : list value) : exc Z :=
  match m with
  | KMeansUnfitted => Raise NotFittedError
  | Unpickled predict => predict row
  end.

Definition load_essential_models
    (xgb_model_json : artifact (list value -> exc Q))
    (cluster_model_pkl : artifact (list value -> exc Z))
    (self : EVStationPredictor) : EVStationPredictor :=
  let self :=
    match xgb_model_json with
    | Absent => self                       (* [os.path.exists] is false: nothing is stored *)
    | Loadable m =>
        {| roi_predictor := Some (RoiBooster m);
           location_cluster := location_cluster self |}
    | Corrupt =>
        (* the empty Booster is stored, [load_model] raises, the handler runs *)
        create_fallback_roi_model
          {| roi_predictor := Some (RoiBooster (fun _ => Raise ModelError));
             location_cluster := location_cluster self |}
    end in
  match cluster_model_pkl with
  | Absent => self
  | Loadable m =>
      {| roi_predictor := roi_predictor self;
         location_cluster := Some (Unpickled m) |}
  | Corrupt => create_fallback_cluster_model self
  end.

(** [__init__]: [self.models = {}], then [load_ev_models]. *)
Definition init
    (xgb_model_json : artifact (list value -> exc Q))
    (cluster_model_pkl : artifact (list value -> exc Z)) : EVStationPredictor :=
  load_essential_models xgb_model_json cluster_model_pkl
    {| roi_predictor := None; location_cluster := None |}.

(** *** Features *)

Record features := {
  traffic_density : value;
  population_density : value;
  income_level : value;
  commercial_score : value;
  residential_score : value;
  industrial_score : value;
  proximity_highway : value;
  proximity_mall : value;
  proximity_office : value;
  ev_adoption_rate : value;
  solar_potential : value;
  land_cost : value;
  electricity_cost : value;
  government_subsidy : value;
  competition_score : value
}.

Definition prepare_ev_features (location_data : gmap string value) : exc features :=
  traffic ← truediv (get location_data "daily_vehicles" (VNum 0)) 1000;
  income ← truediv (get location_data "avg_income" (VNum 0)) 1000;
  land ← truediv (get location_data "land_cost" (VNum 0)) 100000;
  mret {|
    traffic_density := traffic;
    population_density := get location_data "population_density" (VNum 0);
    income_level := income;
    commercial_score := get location_data "commercial_score" (VNum 0);
    residential_score := get location_data "residential_score" (VNum 0);
    industrial_score := get location_data "industrial_score" (VNum 0);
    proximity_highway := get location_data "highway_distance" (VNum 10);
    proximity_mall := get location_data "mall_distance" (VNum 5);
    proximity_office := get location_data "office_distance" (VNum 3);
    ev_adoption_rate := get location_data "ev_adoption" (VNum 0);
    solar_potential := get location_data "solar_potential" (VNum 0);
    land_cost := land;
    electricity_cost := get location_data "electricity_rate" (VNum 0);
    government_subsidy := get location_data "subsidy_available" (VNum 0);
    competition_score := get location_data "competition" (VNum 0)
  |}.

(** [list(features.values())]: the values in insertion order. *)
Definition values (f : features) : list value :=
  [ traffic_density f; population_density f; income_level f;
    commercial_score f; residential_score f; industrial_score f;
    proximity_highway f; proximity_mall f; proximity_office f;
    ev_adoption_rate f; solar_potential f; land_cost f;
    electricity_cost f; government_subsidy f; competition_score f ].

(** *** Return on investment *)

Definition calculate_fallback_roi (f : features) : exc Q :=
  let base_roi : Q := 12 in
  c ← gt (traffic_density f) 5;
  let base_roi := if (c : bool) then base_roi + 3 else base_roi in
  c ← gt (income_level f) 75;
  let base_roi := if (c : bool) then base_roi + 2 else base_roi in
  c ← gt (ev_adoption_rate f) 20;
  let base_roi := if (c : bool) then base_roi + 4 else base_roi in
  c ← lt (competition_score f) 3;
  let base_roi := if (c : bool) then base_roi + 2 else base_roi in
  c ← gt (government_subsidy f) 0;
  let base_roi := if (c : bool) then base_roi + 3 else base_roi in
  mret (builtin_min base_roi 35).

(** The local variable [adjusted] of [adjust_roi] just before the floor. *)
Definition adjusted (base_roi : Q) (location_data : gmap string value) : Q :=
  let adjusted := base_roi in
  let adjusted :=
    if truthy (get location_data "fast_charging" (VBool false))
    then adjusted + 5 else adjusted in
  let adjusted :=
    if truthy (get location_data "solar_powered" (VBool false))
    then adjusted + 3 else adjusted in
  let adjusted :=
    if truthy (get location_data "amenities" (VBool false))
    then adjusted + 2 else adjusted in
  let adjusted :=
    if truthy (get location_data "high_competition" (VBool false))
    then adjusted - 4 else adjusted in
  let adjusted :=
    if truthy (get location_data "high_land_cost" (VBool false))
    then adjusted - 3 else adjusted in
  adjusted.

Definition adjust_roi (base_roi : Q) (location_data : gmap string value) : Q :=
  builtin_max (adjusted base_roi location_data) 5.

(** A Python float that may be [float('inf')]. *)
Inductive pyfloat :=
| Finite (q : Q)
| Infinity.

Definition calculate_payback_period (annual_roi : Q) : pyfloat :=
  if Qleb annual_roi 0 then Infinity else Finite (100 / annual_roi).

Definition calculate_break_even (annual_roi : Q) : pyfloat :=
  match calculate_payback_period annual_roi with
  | Finite payback_years => Finite (payback_years * 12)
  | Infinity => Infinity
  end.

Definition estimate_revenue (location_data : gmap string value) : exc Z :=
  let base_revenue : Q := 50000 in
  let vehicles := get location_data "daily_vehicles" (VNum 1000) in
  let ev_rate := get location_data "ev_adoption" (VNum 5) in
  r ← number ev_rate;
  v ← number vehicles;
  let estimated_ev_traffic := v * (r / 100) * (1 # 10) in
  let revenue := base_revenue + estimated_ev_traffic * 365 * 15 in
  mret (int revenue).

Record roi_result := {
  annual_roi : Q;
  payback_period : pyfloat;
  break_even_months : pyfloat;
  estimated_annual_revenue : Z
}.

(** The dict returned by the handler of [predict_roi]. *)
Definition default_roi_result : roi_result :=
  {| annual_roi := 15;
     payback_period := Finite 6.7;
     break_even_months := Finite 80;
     estimated_annual_revenue := 120000 |}.

Definition predict_roi (self : EVStationPredictor) (f : features)
    (location_data : gmap string value) : roi_result :=
  let body : exc roi_result :=
    m ← match roi_predictor self with
        | Some m => Ok m
        | None => Raise (KeyError "roi_predictor")
        end;
    base_roi ← match m with
               | RoiBooster predict => predict (values f)
               | RoiFallback => calculate_fallback_roi f
               end;
    let adjusted_roi := adjust_roi base_roi location_data in
    revenue ← estimate_revenue location_data;
    mret {| annual_roi := adjusted_roi;
            payback_period := calculate_payback_period adjusted_roi;
            break_even_months := calculate_break_even adjusted_roi;
            estimated_annual_revenue := revenue |} in
  match body with
  | Ok r => r
  | Raise _ => default_roi_result
  end.

(** *** Location cluster *)

Record cluster_result := {
  cluster_id : Z;
  cluster_name : string;
  description : string
}.

Definition cluster_types : gmap Z string :=
  list_to_map
    [ (0%Z, "Premium Urban - High traffic, high income");
      (1%Z, "Commercial Hub - Shopping centers, offices");
      (2%Z, "Residential Area - Steady local traffic");
      (3%Z, "Highway Corridor - Travel and transit focus");
      (4%Z, "Developing Area - Growth potential") ].

Definition descriptions : gmap Z string :=
  list_to_map
    [ (0%Z, "Excellent location with high EV adoption potential and premium pricing capability");
      (1%Z, "Strong commercial traffic with good revenue potential during business hours");
      (2%Z, "Consistent residential usage with potential for loyalty programs");
      (3%Z, "High-volume transient traffic, ideal for fast charging stations");
      (4%Z, "Emerging area with growth potential, lower initial returns but high future upside") ].

Definition get_cluster_description (cluster_id : Z) : string :=
  default "Standard location with balanced potential" (descriptions !! cluster_id).

(** The dict returned by the handler of [predict_location_cluster]. *)
Definition default_cluster_result : cluster_result :=
  {| cluster_id := 2;
     cluster_name := "Standard Commercial";
     description := "Balanced location with moderate potential" |}.

Definition predict_location_cluster (self : EVStationPredictor) (f : features)
    : cluster_result :=
  let body : exc cluster_result :=
    let feature_array := values f in
    m ← match location_cluster self with
        | Some m => Ok m
        | None => Raise (KeyError "location_cluster")
        end;
    cluster ← cluster_model_predict m feature_array;
    mret {| cluster_id := cluster;
            cluster_name := default "Unknown" (cluster_types !! cluster);
            description := get_cluster_description cluster |} in
  match body with
  | Ok r => r
  | Raise _ => default_cluster_result
  end.

(** *** Recommendations, score, grade, risk *)

(** The recommendation messages, in the order they appear in the source. *)
Inductive recommendation :=
| PremiumInvestment        (* Consider multiple charging bays *)
| StrongInvestment         (* Optimal for single station *)
| ModerateInvestment       (* Start with basic infrastructure *)
| EvaluateCarefully        (* Consider alternative locations *)
| InstallDCFastChargers    (* Target premium customers *)
| AddLoungeAmenities       (* Increase dwell time revenue *)
| PartnerWithRetailers     (* Cross-promotion opportunities *)
| FocusOnBusinessHours     (* Peak pricing strategy *)
| UltraFastCharging        (* Minimize stop time for travelers *)
| AddFoodServices          (* Capture additional revenue *)
| AddSolarCanopy           (* Reduce electricity costs and carbon footprint *)
| CommunityEducation.      (* Work with local EV groups to drive adoption *)

Definition generate_station_recommendations (roi_prediction : roi_result)
    (cluster_prediction : cluster_result) (location_data : gmap string value)
    : exc (list recommendation) :=
  let roi := annual_roi roi_prediction in
  let recommendations :=
    if Qltb 25 roi then [PremiumInvestment]
    else if Qltb 15 roi then [StrongInvestment]
    else if Qltb 8 roi then [ModerateInvestment]
    else [EvaluateCarefully] in
  let cluster_id := cluster_id cluster_prediction in
  let recommendations :=
    if (cluster_id =? 0)%Z
    then recommendations ++ [InstallDCFastChargers; AddLoungeAmenities]
    else if (cluster_id =? 1)%Z
    then recommendations ++ [PartnerWithRetailers; FocusOnBusinessHours]
    else if (cluster_id =? 3)%Z
    then recommendations ++ [UltraFastCharging; AddFoodServices]
    else recommendations in
  c ← gt (get location_data "solar_potential" (VNum 0)) 70;
  let recommendations :=
    if (c : bool) then recommendations ++ [AddSolarCanopy] else recommendations in
  c ← lt (get location_data "ev_adoption" (VNum 0)) 10;
  let recommendations :=
    if (c : bool) then recommendations ++ [CommunityEducation] else recommendations in
  mret recommendations.

Definition cluster_scores : gmap Z Q :=
  list_to_map [ (0%Z, 45); (1%Z, 40); (2%Z, 30); (3%Z, 35); (4%Z, 25) ].

Definition calculate_viability_score (roi_prediction : roi_result)
    (cluster_prediction : cluster_result) : Q :=
  let roi_score := builtin_min (annual_roi roi_prediction * 2) 50 in
  let cluster_score := default 20 (cluster_scores !! cluster_id cluster_prediction) in
  builtin_min (roi_score + cluster_score) 100.

Definition get_investment_grade (roi : Q) : string :=
  if Qleb 25 roi then "A+ (Excellent)"
  else if Qleb 20 roi then "A (Very Good)"
  else if Qleb 15 roi then "B+ (Good)"
  else if Qleb 10 roi then "B (Average)"
  else if Qleb 5 roi then "C (Fair)"
  else "D (Poor)".

Definition get_risk_level (roi : Q) : string :=
  if Qleb 20 roi then "Low Risk"
  else if Qleb 12 roi then "Moderate Risk"
  else if Qleb 8 roi then "High Risk"
  else "Very High Risk".

(** *** The pipeline *)

Record prediction := {
  roi : roi_result;                         (* ['predictions']['roi'] *)
  location_type : cluster_result;           (* ['predictions']['location_type'] *)
  recommendations : list recommendation;
  viability_score : Q;
  investment_grade : string;
  risk_level : string
}.

(** The dict [predict_ev_station_viability] returns: a prediction, or
    [{'error': str(e)}]. *)
Inductive analysis :=
| Prediction (p : prediction)
| Error (e : exn).

Definition predict_ev_station_viability (self : EVStationPredictor)
    (location_data : value) : analysis :=
  let body : exc prediction :=
    _ ← obj_get location_data "location_name" (VStr "Unknown");
    match location_data with
    | VDict d =>
        f ← prepare_ev_features d;
        let roi_prediction := predict_roi self f d in
        let cluster_prediction := predict_location_cluster self f in
        recommendations ← generate_station_recommendations
                            roi_prediction cluster_prediction d;
        mret {| roi := roi_prediction;
                location_type := cluster_prediction;
                recommendations := recommendations;
                viability_score :=
                  calculate_viability_score roi_prediction cluster_prediction;
                investment_grade := get_investment_grade (annual_roi roi_prediction);
                risk_level := get_risk_level (annual_roi roi_prediction) |}
    | _ => Raise AttributeError
    end in
  match body with
  | Ok p => Prediction p
  | Raise e => Error e
  end.

(** ['error' in r] for a dict returned by the pipeline. *)
Definition has_error (r : analysis) : bool :=
  match r with
  | Prediction _ => false
  | Error _ => true
  end.

(** ** [app.py]: the endpoints *)

Inductive failure :=
| Message (s : string)
| MissingFields (missing required : list string)
| Exception (e : exn).                       (* [str(e)] *)

(** A JSON answer with status 200, or an error body with its status. *)
Inductive response (A : Type) :=
| Json (body : A)
| Failed (status : nat) (error : failure).
Arguments Json {A} body.
Arguments Failed {A} status error.

Definition required_fields : list string :=
  ["daily_vehicles"; "population_density"; "avg_income"].

(** [[field for field in fields if field not in location_data]] *)
Fixpoint missing_fields (location_data : value) (fields : list string)
    : exc (list string) :=
  match fields with
  | [] => Ok []
  | field :: fields' =>
      c ← contains location_data field;
      rest ← missing_fields location_data fields';
      mret (if (c : bool) then rest else field :: rest)
  end.

(** [/predict] *)
Definition predict_ev_station (ev_predictor : option EVStationPredictor)
    (location_data : value) : response (analysis * value) :=
  let body : exc (response (analysis * value)) :=
    match ev_predictor with
    | None => Ok (Failed 500 (Message "EV predictor not available"))
    | Some p =>
        if negb (truthy location_data)
        then Ok (Failed 400 (Message "No location data provided"))
        else
          missing ← missing_fields location_data required_fields;
          match missing with
          | _ :: _ => Ok (Failed 400 (MissingFields missing required_fields))
          | [] =>
              let result := predict_ev_station_viability p location_data in
              name ← obj_get location_data "location_name" (VStr "Unknown Location");
              mret (Json (result, name))
          end
    end in
  match body with
  | Ok r => r
  | Raise e => Failed 500 (Exception e)
  end.

(** One element of [results]: the pipeline's dict, or the dict built by the
    handler of the loop body, with the two keys both branches add. *)
Record batch_entry := {
  entry : analysis;
  location_index : nat;
  location_name : value
}.

Record batch_response := {
  total_locations : nat;
  successful_analysis : nat;
  results : list batch_entry
}.

(** ['error' not in r] *)
Definition no_error (r : batch_entry) : bool := negb (has_error (entry r)).

(** The body of the [for] loop: one [try]/[except] around one location. *)
Definition batch_step (p : EVStationPredictor) (i : nat) (location : value)
    (results : list batch_entry) : exc (list batch_entry) :=
  try_except
    (let result := predict_ev_station_viability p location in
     name ← obj_get location "location_name" (VStr ("Location_" +:+ pretty i));
     mret (results ++ [ {| entry := result; location_index := i; location_name := name |} ]))
    (fun e =>
     name ← obj_get location "location_name" (VStr ("Location_" +:+ pretty i));
     mret (results ++ [ {| entry := Error e; location_index := i; location_name := name |} ])).

(** [for i, location in enumerate(...)], from index [i] on. *)
Fixpoint batch_loop (p : EVStationPredictor) (i : nat) (locations : list value)
    (results : list batch_entry) : exc (list batch_entry) :=
  match locations with
  | [] => Ok results
  | location :: locations' =>
      results ← batch_step p i location results;
      batch_loop p (S i) locations' results
  end.

(** [/batch_analyze] *)
Definition batch_analyze (ev_predictor : option EVStationPredictor)
    (data : value) : response batch_response :=
  let body : exc (response batch_response) :=
    match ev_predictor with
    | None => Ok (Failed 500 (Message "EV predictor not available"))
    | Some p =>
        if negb (truthy data)
        then Ok (Failed 400 (Message "No locations data provided"))
        else
          c ← contains data "locations";
          if negb c
          then Ok (Failed 400 (Message "No locations data provided"))
          else
            locations ← getitem data "locations";
            items ← iter locations;
            results ← batch_loop p 0 items [];
            mret (Json {|
              total_locations := length items;
              successful_analysis := length (List.filter no_error results);
              results := results |})
    end in
  match body with
  | Ok r => r
  | Raise e => Failed 500 (Exception e)
  end.

(** [get_model_info]: one entry per registered model, in insertion order,
    with the name of its Python type and the constant status.  The type of
    an unpickled object is whatever was pickled; its name is a parameter. *)
Definition get_model_info (pickled_type : string) (self : EVStationPredictor)
    : list (string * (string * string)) :=
  match roi_predictor self with
  | Some RoiFallback => [("roi_predictor", ("str", "loaded"))]
  | Some (RoiBooster _) => [("roi_predictor", ("Booster", "loaded"))]
  | None => []
  end ++
  match location_cluster self with
  | Some KMeansUnfitted => [("location_cluster", ("KMeans", "loaded"))]
  | Some (Unpickled _) => [("location_cluster", (pickled_type, "loaded"))]
  | None => []
  end.

(** [len(self.models)] *)
Definition models_len (self : EVStationPredictor) : nat :=
  (match roi_predictor self with Some _ => 1 | None => 0 end +
   match location_cluster self with Some _ => 1 | None => 0 end)%nat.

(** [/health]: the fields [status] and [models_loaded]. *)
Definition health_check (ev_predictor : option EVStationPredictor) : string * nat :=
  match ev_predictor with
  | Some p => ("healthy", models_len p)
  | None => ("unhealthy", 0%nat)
  end.

(** [/models]: the fields [models] and [total_models]. *)
Definition list_models (pickled_type : string)
    (ev_predictor : option EVStationPredictor)
    : response (list (string * (string * string)) * nat) :=
  match ev_predictor with
  | None => Failed 500 (Message "EV predictor not initialized")
  | Some p =>
      let models_info := get_model_info pickled_type p in
      Json (models_info, length models_info)
  end.

(** ** [main_1.py]: the demand endpoint *)

Definition demand_required_fields : list string :=
  ["daily_vehicles"; "population_density"; "avg_income"; "ev_adoption"].

(** [[demand_data[field] for field in fields]] *)
Fixpoint demand_row (demand_data : value) (fields : list string) : exc (list value) :=
  match fields with
  | [] => Ok []
  | field :: fields' =>
      v ← getitem demand_data field;
      rest ← demand_row demand_data fields';
      mret (v :: rest)
  end.

(** [/predict_demand].  The scaler and the LSTM model are loaded together
    or not at all; [lstm] stands for everything done with the row once it
    is built (scaling, prediction, inverse scaling, serialisation of the
    figure), any step of which may raise. *)
Definition predict_ev_demand (lstm : option (list value -> exc Q))
    (demand_data : value) : response (Q * value) :=
  let body : exc (response (Q * value)) :=
    match lstm with
    | None => Ok (Failed 500 (Message "LSTM model or scaler not available"))
    | Some predict =>
        if negb (truthy demand_data)
        then Ok (Failed 400 (Message "No demand data provided"))
        else
          missing ← missing_fields demand_data demand_required_fields;
          match missing with
          | _ :: _ => Ok (Failed 400 (MissingFields missing demand_required_fields))
          | [] =>
              input_data ← demand_row demand_data demand_required_fields;
              predicted_demand ← predict input_data;
              mret (Json (predicted_demand, demand_data))
          end
    end in
  match body with
  | Ok r => r
  | Raise e => Failed 500 (Exception e)
  end.

(** ** [frontend/app.py]: the arithmetic of the ROI calculator *)






(** * Reference definitions

    Sample inputs, and the rules in the words of the specification, to be
    compared with the functions above. *)

(** ** Sample data *)

(** The location of [/sample], cut down to the keys the scenario of the
    specification lists. *)
Definition sample_location : gmap string value :=
  list_to_map
    [ ("daily_vehicles", VNum 15000); ("population_density", VNum 8500);
      ("avg_income", VNum 85000); ("commercial_score", VNum 85);
      ("ev_adoption", VNum 15); ("solar_potential", VNum 75);
      ("competition", VNum 2); ("fast_charging", VBool true);
      ("solar_powered", VBool true); ("amenities", VBool true);
      ("high_competition", VBool false); ("high_land_cost", VBool false) ].

(** Its feature vector, as [prepare_ev_features] builds it. *)
Definition sample_features : features :=
  {| traffic_density := VNum (15000 / 1000);
     population_density := VNum 8500;
     income_level := VNum (85000 / 1000);
     commercial_score := VNum 85;
     residential_score := VNum 0;
     industrial_score := VNum 0;
     proximity_highway := VNum 10;
     proximity_mall := VNum 5;
     proximity_office := VNum 3;
     ev_adoption_rate := VNum 15;
     solar_potential := VNum 75;
     land_cost := VNum (0 / 100000);
     electricity_cost := VNum 0;
     government_subsidy := VNum 0;
     competition_score := VNum 2 |}.

(** Both artifact files are there and neither can be read: the two
    fallbacks are registered. *)
Definition fallback_predictor : EVStationPredictor := init Corrupt Corrupt.

(** Neither artifact file is there. *)
Definition bare_predictor : EVStationPredictor := init Absent Absent.

(** What a rule contributes: its increment when its test holds. *)
Definition bonus (test : bool) (increment : Q) : Q :=
  if test then increment else 0.

(** The fallback formula in the words of the specification, over the five
    features it reads. *)
Definition fallback_roi_spec (traffic income ev_adoption competition subsidy : Q) : Q :=
  Qmin (12 + bonus (Qltb 5 traffic) 3
           + bonus (Qltb 75 income) 2
           + bonus (Qltb 20 ev_adoption) 4
           + bonus (Qltb competition 3) 2
           + bonus (Qltb 0 subsidy) 3)
       35.

(** ** The adjustment stage *)

(** [location_data.get(k, False)] read as a condition. *)
Definition flag (location_data : gmap string value) (k : string) : bool :=
  truthy (get location_data k (VBool false)).

(** The adjustment stage in the words of the specification. *)
Definition adjust_roi_spec (base_roi : Q) (location_data : gmap string value) : Q :=
  Qmax (base_roi + bonus (flag location_data "fast_charging") 5
                 + bonus (flag location_data "solar_powered") 3
                 + bonus (flag location_data "amenities") 2
                 - bonus (flag location_data "high_competition") 4
                 - bonus (flag location_data "high_land_cost") 3)
       5.

(** The same feature vector with another EV-adoption entry. *)
Definition with_ev_adoption_rate (f : features) (v : value) : features :=
  {| traffic_density := traffic_density f;
     population_density := population_density f;
     income_level := income_level f;
     commercial_score := commercial_score f;
     residential_score := residential_score f;
     industrial_score := industrial_score f;
     proximity_highway := proximity_highway f;
     proximity_mall := proximity_mall f;
     proximity_office := proximity_office f;
     ev_adoption_rate := v;
     solar_potential := solar_potential f;
     land_cost := land_cost f;
     electricity_cost := electricity_cost f;
     government_subsidy := government_subsidy f;
     competition_score := competition_score f |}.

(** The same record with [fast_charging] switched on. *)
Definition enable_fast_charging (location_data : gmap string value)
    : gmap string value :=
  <["fast_charging" := VBool true]> location_data.

(** A registry whose trained regressor answers 0 for every row. *)
Definition flat_predictor : EVStationPredictor :=
  {| roi_predictor := Some (RoiBooster (fun _ => Ok 0));
     location_cluster := None |}.

(** ** Clusters *)

(** The five-entry table of names in the words of the specification, with
    the generic label for any other id. *)
Definition cluster_name_spec (id : Z) : string :=
  match id with
  | 0%Z => "Premium Urban - High traffic, high income"
  | 1%Z => "Commercial Hub - Shopping centers, offices"
  | 2%Z => "Residential Area - Steady local traffic"
  | 3%Z => "Highway Corridor - Travel and transit focus"
  | 4%Z => "Developing Area - Growth potential"
  | _ => "Unknown"
  end.

Definition cluster_description_spec (id : Z) : string :=
  match id with
  | 0%Z => "Excellent location with high EV adoption potential and premium pricing capability"
  | 1%Z => "Strong commercial traffic with good revenue potential during business hours"
  | 2%Z => "Consistent residential usage with potential for loyalty programs"
  | 3%Z => "High-volume transient traffic, ideal for fast charging stations"
  | 4%Z => "Emerging area with growth potential, lower initial returns but high future upside"
  | _ => "Standard location with balanced potential"
  end.

(** The cluster contribution to the viability score. *)
Definition cluster_score_spec (id : Z) : Q :=
  match id with
  | 0%Z => 45
  | 1%Z => 40
  | 2%Z => 30
  | 3%Z => 35
  | 4%Z => 25
  | _ => 20
  end.

(** The viability score in the words of the specification. *)
Definition viability_score_spec (annual_roi : Q) (id : Z) : Q :=
  Qmin (Qmin (annual_roi * 2) 50 + cluster_score_spec id) 100.

(** A registry whose unpickled clusterer was trained with eight clusters
    and answers 7 for every row. *)
Definition eight_cluster_predictor : EVStationPredictor :=
  {| roi_predictor := Some RoiFallback;
     location_cluster := Some (Unpickled (fun _ => Ok 7%Z)) |}.

(** ** Payback *)

(** What every ROI result is expected to satisfy: the floor of 5 on the
    annual figure, and a finite payback period of at most 20 years that is
    [100 / annual_roi] unless the result is the fixed default. *)
Definition floored_with_finite_payback (r : roi_result) : Prop :=
  5 <= annual_roi r /\
  calculate_payback_period (annual_roi r) <> Infinity /\
  exists years,
    payback_period r = Finite years /\
    0 < years /\ years <= 20 /\
    (r = default_roi_result \/ years == 100 / annual_roi r).

(** ** Batches *)

Definition is_dict (v : value) : bool :=
  match v with
  | VDict _ => true
  | _ => false
  end.

(** The body of a batch request over the given locations. *)
Definition batch_request (locations : list value) : value :=
  VDict {[ "locations" := VList locations ]}.

(** Three copies of the sample location, the second one without the key
    [field]. *)
Definition batch_of_three (field : string) : value :=
  batch_request
    [ VDict sample_location;
      VDict (delete field sample_location);
      VDict sample_location ].

(** The batch answers with three results, all three counted as successful,
    the second one a prediction carrying index 1. *)
Definition second_record_analysed (field : string) : Prop :=
  exists resp e,
    batch_analyze (Some fallback_predictor) (batch_of_three field) = Json resp /\
    total_locations resp = 3%nat /\
    successful_analysis resp = 3%nat /\
    results resp !! 1%nat = Some e /\
    location_index e = 1%nat /\
    has_error (entry e) = false.

(** The single-record endpoint turns the same record down, naming the
    missing key. *)
Definition second_record_rejected (field : string) : Prop :=
  predict_ev_station (Some fallback_predictor) (VDict (delete field sample_location))
    = Failed 400 (MissingFields [field] required_fields).

(** The keys whose values the pipeline does arithmetic or ordering on
    outside a handler of its own, each with a numeric default: the record
    is analysed without error exactly when they all hold numbers. *)
Definition numeric_at (location_data : gmap string value) (k : string) : bool :=
  bool_decide (is_Some (as_number (get location_data k (VNum 0)))).

Definition analysable (location_data : gmap string value) : bool :=
  numeric_at location_data "daily_vehicles" &&
  numeric_at location_data "avg_income" &&
  numeric_at location_data "land_cost" &&
  numeric_at location_data "solar_potential" &&
  numeric_at location_data "ev_adoption".

(** ** Further reference definitions *)

(** The fallback figure without its cap. *)
Definition fallback_roi_sum (traffic income ev_adoption competition subsidy : Q) : Q :=
  12 + bonus (Qltb 5 traffic) 3
     + bonus (Qltb 75 income) 2
     + bonus (Qltb 20 ev_adoption) 4
     + bonus (Qltb competition 3) 2
     + bonus (Qltb 0 subsidy) 3.


(** The five flag adjustments of a record. *)
Definition flag_adjustment (location_data : gmap string value) : Q :=
  bonus (flag location_data "fast_charging") 5
  + bonus (flag location_data "solar_powered") 3
  + bonus (flag location_data "amenities") 2
  - bonus (flag location_data "high_competition") 4
  - bonus (flag location_data "high_land_cost") 3.

(** A record on which every rule of the fallback and every positive flag
    fires. *)
Definition best_location : gmap string value :=
  list_to_map
    [ ("daily_vehicles", VNum 15000); ("avg_income", VNum 85000);
      ("ev_adoption", VNum 25); ("competition", VNum 2);
      ("subsidy_available", VNum 30); ("fast_charging", VBool true);
      ("solar_powered", VBool true); ("amenities", VBool true) ].

Definition best_features : features :=
  {| traffic_density := VNum (15000 / 1000);
     population_density := VNum 0;
     income_level := VNum (85000 / 1000);
     commercial_score := VNum 0;
     residential_score := VNum 0;
     industrial_score := VNum 0;
     proximity_highway := VNum 10;
     proximity_mall := VNum 5;
     proximity_office := VNum 3;
     ev_adoption_rate := VNum 25;
     solar_potential := VNum 0;
     land_cost := VNum (0 / 100000);
     electricity_cost := VNum 0;
     government_subsidy := VNum 30;
     competition_score := VNum 2 |}.


(** The four messages of the ROI tier. *)
Definition is_tier (m : recommendation) : bool :=
  match m with
  | PremiumInvestment | StrongInvestment | ModerateInvestment | EvaluateCarefully => true
  | _ => false
  end.

(** The six messages tied to a cluster. *)
Definition is_cluster_message (m : recommendation) : bool :=
  match m with
  | InstallDCFastChargers | AddLoungeAmenities | PartnerWithRetailers
  | FocusOnBusinessHours | UltraFastCharging | AddFoodServices => true
  | _ => false
  end.

(** ** Endpoints *)

(** [k not in d] for a dict. *)
Definition absent (d : gmap string value) (k : string) : bool :=
  negb (bool_decide (is_Some (d !! k))).

(** The sample record with an income that is not a number. *)
Definition odd_income_location : gmap string value :=
  <["avg_income" := VStr "high"]> sample_location.

(** A JSON array that names the three mandatory keys. *)
Definition names_only : list value :=
  [VStr "daily_vehicles"; VStr "population_density"; VStr "avg_income"].

(** The entry the batch loop builds for the dict at position [i]. *)
Definition batch_entry_of (p : EVStationPredictor) (i : nat)
    (d : gmap string value) : batch_entry :=
  {| entry := predict_ev_station_viability p (VDict d);
     location_index := i;
     location_name := get d "location_name" (VStr ("Location_" +:+ pretty i)) |}.

(** A location the pipeline analyses without error. *)
Definition analysable_value (location : value) : bool :=
  match location with
  | VDict d => analysable d
  | _ => false
  end.

(** A batch whose last location is not a JSON object. *)
Definition batch_with_stray_number : list value :=
  [VDict sample_location; VDict sample_location; VNum 7].

(** A batch with one record that cannot be analysed. *)
Definition batch_with_odd_income : list value :=
  [VDict sample_location; VDict odd_income_location; VDict sample_location].

(** Whether an artifact file is there, readable or not. *)
Definition on_disk {M} (a : artifact M) : nat :=
  match a with
  | Absent => 0
  | _ => 1
  end.

(** A record for the demand endpoint, and an LSTM stand-in that answers
    42 for every row. *)
Definition demand_record : gmap string value :=
  list_to_map
    [ ("daily_vehicles", VNum 15000); ("population_density", VNum 8500);
      ("avg_income", VNum 85000); ("ev_adoption", VNum 15) ].

Definition constant_lstm : list value -> exc Q := fun _ => Ok 42.





(** * Properties *)

(** ** Facts about the Python fragment *)

Section PyFacts.

Lemma Qltb_lt x y : Qltb x y = true <-> x < y.
Proof.
  unfold Qltb. rewrite Qlt_alt. destruct (x ?= y); intuition congruence.
Qed.

Lemma Qltb_ge x y : Qltb x y = false <-> y <= x.
Proof.
  unfold Qltb. rewrite Qle_alt, <- Qgt_alt, Qlt_alt.
  destruct (x ?= y) eqn:E; intuition congruence.
Qed.

Lemma Qleb_le x y : Qleb x y = true <-> x <= y.
Proof.
  unfold Qleb. rewrite Qle_alt. destruct (x ?= y); intuition congruence.
Qed.

Lemma Qltb_reflect x y : reflect (x < y) (Qltb x y).
Proof.
  destruct (Qltb x y) eqn:E; constructor.
  - by apply Qltb_lt.
  - apply Qltb_ge in E. by apply Qle_not_lt.
Qed.

Lemma Qleb_reflect x y : reflect (x <= y) (Qleb x y).
Proof.
  destruct (Qleb x y) eqn:E; constructor.
  - by apply Qleb_le.
  - intros H. apply Qleb_le in H. congruence.
Qed.

Lemma builtin_min_spec a b :
  (b < a /\ builtin_min a b = b) \/ (a <= b /\ builtin_min a b = a).
Proof.
  unfold builtin_min.
  destruct (Qltb_reflect b a); [left | right]; split; try done.
  by apply Qnot_lt_le.
Qed.

Lemma builtin_max_spec a b :
  (a < b /\ builtin_max a b = b) \/ (b <= a /\ builtin_max a b = a).
Proof.
  unfold builtin_max.
  destruct (Qltb_reflect a b); [left | right]; split; try done.
  by apply Qnot_lt_le.
Qed.

Lemma builtin_min_Qmin a b : builtin_min a b == Qmin a b.
Proof.
  destruct (builtin_min_spec a b) as [[H ->] | [H ->]];
    destruct (Q.min_spec a b) as [[H' ->] | [H' ->]]; lra.
Qed.

Lemma builtin_max_Qmax a b : builtin_max a b == Qmax a b.
Proof.
  destruct (builtin_max_spec a b) as [[H ->] | [H ->]];
    destruct (Q.max_spec a b) as [[H' ->] | [H' ->]]; lra.
Qed.

Lemma builtin_max_lower a b : b <= builtin_max a b.
Proof. destruct (builtin_max_spec a b) as [[H ->] | [H ->]]; lra. Qed.

Lemma number_Ok v q : as_number v = Some q -> number v = Ok q.
Proof. unfold number. by intros ->. Qed.

Lemma gt_Ok v k q : as_number v = Some q -> gt v k = Ok (Qltb k q).
Proof. intros H. unfold gt. by rewrite (number_Ok _ _ H). Qed.

Lemma lt_Ok v k q : as_number v = Some q -> lt v k = Ok (Qltb q k).
Proof. intros H. unfold lt. by rewrite (number_Ok _ _ H). Qed.

Lemma gt_inv v k b : gt v k = Ok b -> exists q, as_number v = Some q /\ b = Qltb k q.
Proof.
  unfold gt, number. destruct (as_number v) as [q|]; [|done].
  intros [= <-]. eauto.
Qed.

Lemma lt_inv v k b : lt v k = Ok b -> exists q, as_number v = Some q /\ b = Qltb q k.
Proof.
  unfold lt, number. destruct (as_number v) as [q|]; [|done].
  intros [= <-]. eauto.
Qed.

End PyFacts.

Example sample_features_prepared :
  prepare_ev_features sample_location = Ok sample_features.
Proof. reflexivity. Qed.

(** ** The fallback formula *)

(** The five rules together add at most 14, so the cap at 35 never cuts. *)
Lemma fallback_roi_spec_range t i e c g :
  12 <= fallback_roi_spec t i e c g <= 26.
Proof.
  unfold fallback_roi_spec.
  destruct (Qltb 5 t), (Qltb 75 i), (Qltb 20 e), (Qltb c 3), (Qltb 0 g);
    vm_compute; split; discriminate.
Qed.

Lemma calculate_fallback_roi_numeric (f : features) (t i e c g : Q) :
  as_number (traffic_density f) = Some t ->
  as_number (income_level f) = Some i ->
  as_number (ev_adoption_rate f) = Some e ->
  as_number (competition_score f) = Some c ->
  as_number (government_subsidy f) = Some g ->
  exists base_roi,
    calculate_fallback_roi f = Ok base_roi /\
    base_roi == fallback_roi_spec t i e c g.
Proof.
  intros Ht Hi He Hc Hg. unfold calculate_fallback_roi, fallback_roi_spec.
  rewrite (gt_Ok _ 5 _ Ht), (gt_Ok _ 75 _ Hi), (gt_Ok _ 20 _ He),
    (lt_Ok _ 3 _ Hc), (gt_Ok _ 0 _ Hg).
  cbn [mbind exc_bind mret exc_ret].
  eexists; split; [reflexivity|].
  destruct (Qltb 5 t), (Qltb 75 i), (Qltb 20 e), (Qltb c 3), (Qltb 0 g);
    reflexivity.
Qed.

(** Whenever the fallback returns at all, the five features it read were
    numbers. *)
Lemma calculate_fallback_roi_inv (f : features) (base_roi : Q) :
  calculate_fallback_roi f = Ok base_roi ->
  exists t i e c g,
    as_number (traffic_density f) = Some t /\
    as_number (income_level f) = Some i /\
    as_number (ev_adoption_rate f) = Some e /\
    as_number (competition_score f) = Some c /\
    as_number (government_subsidy f) = Some g.
Proof.
  unfold calculate_fallback_roi, gt, lt, number.
  destruct (as_number (traffic_density f)) as [t|]; [|done].
  destruct (as_number (income_level f)) as [i|]; [|done].
  destruct (as_number (ev_adoption_rate f)) as [e|]; [|done].
  destruct (as_number (competition_score f)) as [c|]; [|done].
  destruct (as_number (government_subsidy f)) as [g|]; [|done].
  intros _. by exists t, i, e, c, g.
Qed.

Lemma calculate_fallback_roi_range (f : features) (base_roi : Q) :
  calculate_fallback_roi f = Ok base_roi -> 12 <= base_roi <= 26.
Proof.
  intros H.
  destruct (calculate_fallback_roi_inv _ _ H)
    as (t & i & e & c & g & Ht & Hi & He & Hc & Hg).
  destruct (calculate_fallback_roi_numeric f t i e c g Ht Hi He Hc Hg)
    as (r & Hr & Hspec).
  rewrite H in Hr. injection Hr as <-.
  pose proof (fallback_roi_spec_range t i e c g). lra.
Qed.

(** C1.  On a feature vector whose five consulted entries are numbers, the
    fallback returns 12 plus 3 for traffic density above 5, 2 for income
    level above 75, 4 for EV adoption above 20, 2 for a competition score
    below 3 and 3 for a positive subsidy, capped at 35; the figure lies
    between 12 and 35. *)
Theorem calculate_fallback_roi_formula (f : features) (t i e c g : Q) :
  as_number (traffic_density f) = Some t ->
  as_number (income_level f) = Some i ->
  as_number (ev_adoption_rate f) = Some e ->
  as_number (competition_score f) = Some c ->
  as_number (government_subsidy f) = Some g ->
  exists base_roi,
    calculate_fallback_roi f = Ok base_roi /\
    base_roi == fallback_roi_spec t i e c g /\
    12 <= base_roi <= 35.
Proof.
  intros Ht Hi He Hc Hg.
  destruct (calculate_fallback_roi_numeric f t i e c g Ht Hi He Hc Hg)
    as (r & Hr & Hspec).
  exists r. split; [done|]. split; [done|].
  pose proof (fallback_roi_spec_range t i e c g). lra.
Qed.

Lemma calculate_fallback_roi_formula_sample :
  exists base_roi,
    calculate_fallback_roi sample_features = Ok base_roi /\
    base_roi == fallback_roi_spec (15000 / 1000) (85000 / 1000) 15 2 0 /\
    12 <= base_roi <= 35.
Proof.
  apply (calculate_fallback_roi_formula sample_features
           (15000 / 1000) (85000 / 1000) 15 2 0);
    reflexivity.
Defined.

(** ** The adjustment stage *)

Lemma adjusted_sum (base_roi : Q) (location_data : gmap string value) :
  adjusted base_roi location_data ==
    base_roi + bonus (flag location_data "fast_charging") 5
             + bonus (flag location_data "solar_powered") 3
             + bonus (flag location_data "amenities") 2
             - bonus (flag location_data "high_competition") 4
             - bonus (flag location_data "high_land_cost") 3.
Proof.
  unfold adjusted, flag.
  destruct (truthy (get location_data "fast_charging" _)),
    (truthy (get location_data "solar_powered" _)),
    (truthy (get location_data "amenities" _)),
    (truthy (get location_data "high_competition" _)),
    (truthy (get location_data "high_land_cost" _));
    unfold bonus; ring.
Qed.

(** The negative adjustments take at most 7 away. *)
Lemma adjusted_lower (base_roi : Q) (location_data : gmap string value) :
  base_roi - 7 <= adjusted base_roi location_data.
Proof.
  rewrite adjusted_sum. unfold bonus.
  destruct (flag location_data "fast_charging"),
    (flag location_data "solar_powered"),
    (flag location_data "amenities"),
    (flag location_data "high_competition"),
    (flag location_data "high_land_cost"); lra.
Qed.

Lemma adjust_roi_floor (base_roi : Q) (location_data : gmap string value) :
  5 <= adjust_roi base_roi location_data.
Proof. apply builtin_max_lower. Qed.

(** C3.  The adjustment stage reads the five flags of the raw record, adds
    5, 3 and 2 for fast charging, solar power and amenities, takes 4 and 3
    away for high competition and high land cost, and floors the result at
    5: the adjusted figure is never below 5. *)
Theorem adjust_roi_formula (base_roi : Q) (location_data : gmap string value) :
  adjust_roi base_roi location_data == adjust_roi_spec base_roi location_data /\
  5 <= adjust_roi base_roi location_data.
Proof.
  split; [|apply adjust_roi_floor].
  unfold adjust_roi, adjust_roi_spec.
  pose proof (adjusted_sum base_roi location_data) as Hsum.
  set (s := base_roi + _ + _ + _ - _ - _) in *.
  destruct (builtin_max_spec (adjusted base_roi location_data) 5) as [[H ->] | [H ->]];
    destruct (Q.max_spec s 5) as [[H' ->] | [H' ->]]; lra.
Qed.

(** ** Monotonicity *)

Lemma flag_enable_fast_charging (location_data : gmap string value) :
  flag (enable_fast_charging location_data) "fast_charging" = true.
Proof.
  unfold flag, enable_fast_charging, get. by rewrite lookup_insert_eq.
Qed.

Lemma flag_enable_other (location_data : gmap string value) (k : string) :
  k ≠ "fast_charging" ->
  flag (enable_fast_charging location_data) k = flag location_data k.
Proof.
  intros Hk. unfold flag, enable_fast_charging, get.
  by rewrite lookup_insert_ne.
Qed.

(** Before the floor, switching fast charging on always adds 5. *)
Lemma adjusted_enable_fast_charging (base_roi : Q) (location_data : gmap string value) :
  flag location_data "fast_charging" = false ->
  adjusted base_roi (enable_fast_charging location_data) ==
    adjusted base_roi location_data + 5.
Proof.
  intros Hoff. rewrite !adjusted_sum.
  rewrite flag_enable_fast_charging, Hoff.
  rewrite !flag_enable_other by done.
  unfold bonus at 1 6. ring.
Qed.

Lemma adjust_roi_enable_fast_charging (base_roi : Q) (location_data : gmap string value) :
  flag location_data "fast_charging" = false ->
  5 <= adjusted base_roi location_data ->
  adjust_roi base_roi (enable_fast_charging location_data) ==
    adjust_roi base_roi location_data + 5.
Proof.
  intros Hoff Hfloor. unfold adjust_roi.
  pose proof (adjusted_enable_fast_charging base_roi location_data Hoff) as Hup.
  destruct (builtin_max_spec (adjusted base_roi location_data) 5) as [[H ->] | [H ->]];
    destruct (builtin_max_spec (adjusted base_roi (enable_fast_charging location_data)) 5)
      as [[H' ->] | [H' ->]]; lra.
Qed.

Lemma calculate_fallback_roi_raise_ev (f : features) (v : value) (x x' base_roi : Q) :
  as_number (ev_adoption_rate f) = Some x ->
  as_number v = Some x' ->
  x <= 20 -> 20 < x' ->
  calculate_fallback_roi f = Ok base_roi ->
  exists base_roi',
    calculate_fallback_roi (with_ev_adoption_rate f v) = Ok base_roi' /\
    base_roi' == base_roi + 4.
Proof.
  intros Hx Hx' Hlow Hhigh Hr.
  destruct (calculate_fallback_roi_inv _ _ Hr)
    as (t & i & e & c & g & Ht & Hi & He & Hc & Hg).
  rewrite Hx in He. injection He as <-.
  destruct (calculate_fallback_roi_numeric f t i x c g) as (r & Hr1 & Hs); try done.
  rewrite Hr in Hr1. injection Hr1 as <-.
  destruct (calculate_fallback_roi_numeric (with_ev_adoption_rate f v) t i x' c g)
    as (r' & Hr' & Hs'); try done.
  exists r'. split; [done|]. rewrite Hs, Hs'. unfold fallback_roi_spec.
  apply Qltb_ge in Hlow. apply Qltb_lt in Hhigh. rewrite Hlow, Hhigh.
  destruct (Qltb 5 t), (Qltb 75 i), (Qltb c 3), (Qltb 0 g); reflexivity.
Qed.

(** C8, the claim as worded fails: with a base figure of 0 and no flag
    set, the floor already lifts the result to 5, and switching fast
    charging on leaves it at 5.  A trained regressor answering 0 brings the
    pipeline there. *)
Lemma fast_charging_gain_lost_under_floor :
  flag ∅ "fast_charging" = false /\
  adjust_roi 0 ∅ == 5 /\
  adjust_roi 0 (enable_fast_charging ∅) == 5 /\
  ~ adjust_roi 0 (enable_fast_charging ∅) == adjust_roi 0 ∅ + 5 /\
  annual_roi (predict_roi flat_predictor sample_features ∅) == 5 /\
  annual_roi (predict_roi flat_predictor sample_features (enable_fast_charging ∅)) == 5.
Proof.
  repeat split; try reflexivity.
  intros H. vm_compute in H. discriminate.
Qed.

(** C8, amended.  Holding everything else fixed, raising the EV-adoption
    feature from at most 20 to above 20 raises the fallback base figure by
    exactly 4.  Switching [fast_charging] on raises the adjusted figure by
    exactly 5 whenever the figure before the floor, with the flag off, is
    at least 5; that is so for every base figure of the fallback path. *)
Theorem roi_monotonicity :
  (forall (f : features) (v : value) (x x' base_roi : Q),
      as_number (ev_adoption_rate f) = Some x ->
      as_number v = Some x' ->
      x <= 20 -> 20 < x' ->
      calculate_fallback_roi f = Ok base_roi ->
      exists base_roi',
        calculate_fallback_roi (with_ev_adoption_rate f v) = Ok base_roi' /\
        base_roi' == base_roi + 4) /\
  (forall (base_roi : Q) (location_data : gmap string value),
      flag location_data "fast_charging" = false ->
      5 <= adjusted base_roi location_data ->
      adjust_roi base_roi (enable_fast_charging location_data) ==
        adjust_roi base_roi location_data + 5) /\
  (forall (f : features) (base_roi : Q) (location_data : gmap string value),
      calculate_fallback_roi f = Ok base_roi ->
      flag location_data "fast_charging" = false ->
      adjust_roi base_roi (enable_fast_charging location_data) ==
        adjust_roi base_roi location_data + 5).
Proof.
  split; [exact calculate_fallback_roi_raise_ev|].
  split; [exact adjust_roi_enable_fast_charging|].
  intros f base_roi location_data Hr Hoff.
  apply adjust_roi_enable_fast_charging; [done|].
  pose proof (calculate_fallback_roi_range _ _ Hr).
  pose proof (adjusted_lower base_roi location_data). lra.
Qed.

Lemma roi_monotonicity_sample :
  (exists base_roi',
      calculate_fallback_roi (with_ev_adoption_rate sample_features (VNum 25))
        = Ok base_roi' /\
      base_roi' == 19 + 4) /\
  adjust_roi 19 (enable_fast_charging (delete "fast_charging" sample_location)) ==
    adjust_roi 19 (delete "fast_charging" sample_location) + 5.
Proof.
  destruct roi_monotonicity as (Hev & Hfc & _). split.
  - apply (Hev sample_features (VNum 25) 15 25 19);
      try reflexivity; vm_compute; discriminate.
  - apply Hfc; [reflexivity | vm_compute; discriminate].
Defined.

(** ** Table lookups *)

Ltac small_id id :=
  destruct id as [|[[[?|?|]|[?|?|]|]|[[?|?|]|[?|?|]|]|]|?]; try reflexivity.

Lemma lookup_five {A} (id : Z) (a0 a1 a2 a3 a4 : A) :
  (list_to_map [(0%Z, a0); (1%Z, a1); (2%Z, a2); (3%Z, a3); (4%Z, a4)] : gmap Z A) !! id =
  match id with
  | 0%Z => Some a0
  | 1%Z => Some a1
  | 2%Z => Some a2
  | 3%Z => Some a3
  | 4%Z => Some a4
  | _ => None
  end.
Proof.
  cbn [list_to_map foldr uncurry curry fst snd].
  destruct (decide (id = 0%Z)) as [->|]; [by rewrite lookup_insert_eq|].
  rewrite lookup_insert_ne by done.
  destruct (decide (id = 1%Z)) as [->|]; [by rewrite lookup_insert_eq|].
  rewrite lookup_insert_ne by done.
  destruct (decide (id = 2%Z)) as [->|]; [by rewrite lookup_insert_eq|].
  rewrite lookup_insert_ne by done.
  destruct (decide (id = 3%Z)) as [->|]; [by rewrite lookup_insert_eq|].
  rewrite lookup_insert_ne by done.
  destruct (decide (id = 4%Z)) as [->|]; [by rewrite lookup_insert_eq|].
  rewrite lookup_insert_ne by done.
  rewrite lookup_empty. small_id id; congruence.
Qed.

Lemma cluster_types_lookup (id : Z) :
  default "Unknown" (cluster_types !! id) = cluster_name_spec id.
Proof.
  unfold cluster_types. rewrite lookup_five. unfold cluster_name_spec.
  small_id id.
Qed.

Lemma get_cluster_description_lookup (id : Z) :
  get_cluster_description id = cluster_description_spec id.
Proof.
  unfold get_cluster_description, descriptions. rewrite lookup_five.
  unfold cluster_description_spec. small_id id.
Qed.

Lemma cluster_scores_lookup (id : Z) :
  default 20 (cluster_scores !! id) = cluster_score_spec id.
Proof.
  unfold cluster_scores. rewrite lookup_five. unfold cluster_score_spec.
  small_id id.
Qed.

Lemma cluster_score_spec_range (id : Z) : 20 <= cluster_score_spec id <= 45.
Proof.
  unfold cluster_score_spec. small_id id; split; vm_compute; discriminate.
Qed.

(** ** The model registry *)

(** The two halves of [load_essential_models] do not look at each other. *)
Lemma init_roi_predictor xgb pkl :
  roi_predictor (init xgb pkl) =
  match xgb with
  | Absent => None
  | Corrupt => Some RoiFallback
  | Loadable m => Some (RoiBooster m)
  end.
Proof. by destruct xgb, pkl. Qed.

Lemma init_location_cluster xgb pkl :
  location_cluster (init xgb pkl) =
  match pkl with
  | Absent => None
  | Corrupt => Some KMeansUnfitted
  | Loadable m => Some (Unpickled m)
  end.
Proof. by destruct xgb, pkl. Qed.

(** With no regression artifact on disk nothing is registered, the lookup
    in [predict_roi] raises, and the fixed default comes back. *)
Lemma predict_roi_absent pkl (f : features) (location_data : gmap string value) :
  predict_roi (init Absent pkl) f location_data = default_roi_result.
Proof. unfold predict_roi. by rewrite init_roi_predictor. Qed.

(** With an unreadable regression artifact the fallback formula is used. *)
Lemma predict_roi_corrupt pkl (f : features) (location_data : gmap string value)
    (base_roi : Q) (revenue : Z) :
  calculate_fallback_roi f = Ok base_roi ->
  estimate_revenue location_data = Ok revenue ->
  annual_roi (predict_roi (init Corrupt pkl) f location_data) =
    adjust_roi base_roi location_data.
Proof.
  intros Hb Hr. unfold predict_roi. rewrite init_roi_predictor.
  cbn [mbind exc_bind]. rewrite Hb. cbn [mbind exc_bind]. by rewrite Hr.
Qed.

(** C2, what the code does.  On the sample record the fallback formula
    gives 19 and, after adjustment, 29; an unreadable artifact yields that
    figure, an absent one yields the fixed default of 15 instead, for every
    input.  For the clusterer both cases end in the default cluster. *)
Theorem absent_roi_artifact_bypasses_fallback :
  calculate_fallback_roi sample_features = Ok 19 /\
  adjust_roi 19 sample_location == 29 /\
  annual_roi (predict_roi (init Corrupt Absent) sample_features sample_location) == 29 /\
  annual_roi (predict_roi (init Absent Absent) sample_features sample_location) == 15 /\
  (forall pkl f location_data,
      predict_roi (init Absent pkl) f location_data = default_roi_result) /\
  (forall xgb f,
      predict_location_cluster (init xgb Absent) f = default_cluster_result /\
      predict_location_cluster (init xgb Corrupt) f = default_cluster_result).
Proof.
  do 4 (split; [reflexivity|]).
  split; [intros; apply predict_roi_absent|].
  intros xgb f. unfold predict_location_cluster.
  by rewrite !init_location_cluster.
Qed.

(** ** Clusters *)

(** C9.  When the registered clusterer is the [KMeans] object made by
    [create_fallback_cluster_model], which nothing ever fits, every feature
    vector is classified as the default: id 2, "Standard Commercial", the
    generic description. *)
Theorem unfitted_kmeans_gives_default (self : EVStationPredictor) (f : features) :
  location_cluster self = Some KMeansUnfitted ->
  predict_location_cluster self f = default_cluster_result /\
  cluster_id (predict_location_cluster self f) = 2%Z /\
  cluster_name (predict_location_cluster self f) = "Standard Commercial" /\
  description (predict_location_cluster self f) =
    "Balanced location with moderate potential".
Proof.
  intros Hm.
  assert (predict_location_cluster self f = default_cluster_result) as ->; [|done].
  unfold predict_location_cluster. by rewrite Hm.
Qed.

Lemma unfitted_kmeans_gives_default_sample :
  predict_location_cluster fallback_predictor sample_features = default_cluster_result /\
  cluster_id (predict_location_cluster fallback_predictor sample_features) = 2%Z /\
  cluster_name (predict_location_cluster fallback_predictor sample_features)
    = "Standard Commercial" /\
  description (predict_location_cluster fallback_predictor sample_features) =
    "Balanced location with moderate potential".
Proof.
  apply (unfitted_kmeans_gives_default fallback_predictor sample_features).
  reflexivity.
Defined.

(** C7, the claim as worded fails: a clusterer that answers 7 puts 7 in
    the result, under the generic label. *)
Lemma cluster_id_out_of_range :
  cluster_id (predict_location_cluster eight_cluster_predictor sample_features) = 7%Z /\
  cluster_name (predict_location_cluster eight_cluster_predictor sample_features)
    = "Unknown" /\
  ~ (0 <= cluster_id (predict_location_cluster eight_cluster_predictor sample_features) <= 4)%Z.
Proof.
  repeat split. vm_compute. intros [_ H]. by apply H.
Qed.

(** C7, amended.  The cluster id of a result is the default 2 when no
    clusterer is registered or the clusterer raises, and otherwise the
    integer the clusterer answered, whatever its range; it is always
    accompanied by a name and a description: the table entries for ids 0 to
    4, the generic label and description for any other id. *)
Theorem cluster_result_resolved (self : EVStationPredictor) (f : features) :
  let r := predict_location_cluster self f in
  (r = default_cluster_result /\
   (location_cluster self = None \/
    exists m e, location_cluster self = Some m /\
                cluster_model_predict m (values f) = Raise e)) \/
  (exists m id,
      location_cluster self = Some m /\
      cluster_model_predict m (values f) = Ok id /\
      cluster_id r = id /\
      cluster_name r = cluster_name_spec id /\
      description r = cluster_description_spec id /\
      ((0 <= id <= 4)%Z -> cluster_name r <> "Unknown") /\
      (~ (0 <= id <= 4)%Z ->
       cluster_name r = "Unknown" /\
       description r = "Standard location with balanced potential")).
Proof.
  unfold predict_location_cluster.
  destruct (location_cluster self) as [m|]; [|left; split; [done|by left]].
  cbn [mbind exc_bind].
  destruct (cluster_model_predict m (values f)) as [id|e] eqn:Hp.
  - right. exists m, id. cbn [mbind exc_bind mret exc_ret cluster_id cluster_name description].
    rewrite cluster_types_lookup, get_cluster_description_lookup.
    repeat split; try done.
    + intros [Hlo Hhi]. unfold cluster_name_spec.
      assert (id = 0 \/ id = 1 \/ id = 2 \/ id = 3 \/ id = 4)%Z
        as [-> | [-> | [-> | [-> | ->]]]] by lia; done.
    + unfold cluster_name_spec. small_id id; lia.
    + unfold cluster_description_spec. small_id id; lia.
  - left. split; [done|]. right. by exists m, e.
Qed.

(** ** The floor on the annual figure and the payback period *)

Lemma calculate_payback_period_finite (annual_roi : Q) :
  5 <= annual_roi ->
  calculate_payback_period annual_roi = Finite (100 / annual_roi) /\
  0 < 100 / annual_roi /\ 100 / annual_roi <= 20.
Proof.
  intros H. unfold calculate_payback_period.
  destruct (Qleb_reflect annual_roi 0); [lra|].
  split; [done|]. split.
  - apply Qlt_shift_div_l; lra.
  - apply Qle_shift_div_r; lra.
Qed.

(** [predict_roi] returns either the fixed default or a dict computed from
    an adjusted figure. *)
Lemma predict_roi_cases (self : EVStationPredictor) (f : features)
    (location_data : gmap string value) :
  predict_roi self f location_data = default_roi_result \/
  exists base_roi revenue,
    predict_roi self f location_data =
      {| annual_roi := adjust_roi base_roi location_data;
         payback_period := calculate_payback_period (adjust_roi base_roi location_data);
         break_even_months := calculate_break_even (adjust_roi base_roi location_data);
         estimated_annual_revenue := revenue |}.
Proof.
  unfold predict_roi.
  destruct (roi_predictor self) as [m|]; [|by left].
  cbn [mbind exc_bind].
  destruct (match m with
            | RoiFallback => calculate_fallback_roi f
            | RoiBooster predict => predict (values f)
            end) as [base_roi|]; [|by left].
  cbn [mbind exc_bind].
  destruct (estimate_revenue location_data) as [revenue|]; [|by left].
  right. by exists base_roi, revenue.
Qed.

Lemma predict_roi_sound (self : EVStationPredictor) (f : features)
    (location_data : gmap string value) :
  floored_with_finite_payback (predict_roi self f location_data).
Proof.
  destruct (predict_roi_cases self f location_data)
    as [-> | (base_roi & revenue & ->)].
  - split; [vm_compute; discriminate|]. split; [done|].
    exists 6.7. split; [done|]. split; [reflexivity|].
    split; [vm_compute; discriminate | by left].
  - pose proof (adjust_roi_floor base_roi location_data) as Hfloor.
    destruct (calculate_payback_period_finite _ Hfloor) as (Hpay & Hpos & Hle).
    split; [done|]. cbn [annual_roi payback_period].
    split; [by rewrite Hpay|].
    exists (100 / adjust_roi base_roi location_data).
    split; [done|]. split; [done|]. split; [done|]. by right.
Qed.

(** ** The pipeline *)

Lemma predict_ev_station_viability_inv (self : EVStationPredictor)
    (location_data : value) (p : prediction) :
  predict_ev_station_viability self location_data = Prediction p ->
  exists d f recs,
    location_data = VDict d /\
    prepare_ev_features d = Ok f /\
    generate_station_recommendations
      (predict_roi self f d) (predict_location_cluster self f) d = Ok recs /\
    p = {| roi := predict_roi self f d;
           location_type := predict_location_cluster self f;
           recommendations := recs;
           viability_score :=
             calculate_viability_score (predict_roi self f d)
               (predict_location_cluster self f);
           investment_grade := get_investment_grade (annual_roi (predict_roi self f d));
           risk_level := get_risk_level (annual_roi (predict_roi self f d)) |}.
Proof.
  unfold predict_ev_station_viability.
  destruct location_data as [| | | | |d]; try done.
  cbn [obj_get mbind exc_bind].
  destruct (prepare_ev_features d) as [f|] eqn:Hf; [|done].
  cbn [mbind exc_bind].
  destruct (generate_station_recommendations _ _ d) as [recs|] eqn:Hrecs; [|done].
  cbn [mbind exc_bind mret exc_ret]. intros [= <-].
  by exists d, f, recs.
Qed.

(** C10.  Every result of [predict_roi] has an annual figure of at least
    5, on the trained path, on the fallback path and on the default path
    alike; its payback period is finite, positive and at most 20 years, and
    [calculate_payback_period] never takes its infinite branch there.  The
    same holds for the ROI part of every prediction of the pipeline. *)
Theorem roi_floor_and_finite_payback :
  (forall (self : EVStationPredictor) (f : features)
          (location_data : gmap string value),
      floored_with_finite_payback (predict_roi self f location_data)) /\
  (forall (self : EVStationPredictor) (location_data : value) (p : prediction),
      predict_ev_station_viability self location_data = Prediction p ->
      floored_with_finite_payback (roi p)).
Proof.
  split; [exact predict_roi_sound|].
  intros self location_data p Hp.
  destruct (predict_ev_station_viability_inv _ _ _ Hp)
    as (d & f & recs & _ & _ & _ & ->).
  apply predict_roi_sound.
Qed.

Lemma roi_floor_and_finite_payback_sample :
  floored_with_finite_payback (predict_roi fallback_predictor sample_features sample_location) /\
  exists p,
    predict_ev_station_viability bare_predictor (VDict sample_location) = Prediction p /\
    floored_with_finite_payback (roi p).
Proof.
  destruct roi_floor_and_finite_payback as [Hroi Hpipe].
  split; [apply Hroi|].
  eexists. split; [vm_compute; reflexivity|].
  eapply (Hpipe bare_predictor (VDict sample_location)).
  vm_compute; reflexivity.
Defined.

(** ** The viability score *)

Lemma calculate_viability_score_spec (r : roi_result) (c : cluster_result) :
  calculate_viability_score r c ==
    viability_score_spec (annual_roi r) (cluster_id c).
Proof.
  unfold calculate_viability_score, viability_score_spec.
  rewrite cluster_scores_lookup.
  set (s := cluster_score_spec (cluster_id c)).
  destruct (builtin_min_spec (annual_roi r * 2) 50) as [[H1 ->] | [H1 ->]];
    destruct (Q.min_spec (annual_roi r * 2) 50) as [[H2 E2] | [H2 E2]];
    match goal with
    | |- builtin_min ?a ?b == _ =>
        destruct (builtin_min_spec a b) as [[H3 ->] | [H3 ->]]
    end;
    destruct (Q.min_spec (Qmin (annual_roi r * 2) 50 + s) 100) as [[H4 ->] | [H4 ->]];
    lra.
Qed.

Lemma viability_score_spec_range (annual_roi : Q) (id : Z) :
  5 <= annual_roi -> 30 <= viability_score_spec annual_roi id <= 95.
Proof.
  intros H. unfold viability_score_spec.
  pose proof (cluster_score_spec_range id) as Hs.
  set (s := cluster_score_spec id) in *.
  destruct (Q.min_spec (annual_roi * 2) 50) as [[H2 E2] | [H2 E2]];
    destruct (Q.min_spec (Qmin (annual_roi * 2) 50 + s) 100) as [[H4 ->] | [H4 ->]];
    lra.
Qed.

(** C4.  In every prediction the viability score is
    [min(min(annual_roi * 2, 50) + cluster_score, 100)], with the cluster
    score 45, 40, 30, 35, 25 for the ids 0 to 4 and 20 for any other id,
    and it lies between 0 and 100. *)
Theorem viability_score_formula (self : EVStationPredictor)
    (location_data : value) (p : prediction) :
  predict_ev_station_viability self location_data = Prediction p ->
  viability_score p ==
    viability_score_spec (annual_roi (roi p)) (cluster_id (location_type p)) /\
  0 <= viability_score p <= 100.
Proof.
  intros Hp.
  destruct (predict_ev_station_viability_inv _ _ _ Hp)
    as (d & f & recs & _ & _ & _ & ->).
  cbn [viability_score roi location_type].
  pose proof (calculate_viability_score_spec (predict_roi self f d)
                (predict_location_cluster self f)) as Hspec.
  split; [done|].
  destruct (predict_roi_sound self f d) as [Hfloor _].
  pose proof (viability_score_spec_range _
                (cluster_id (predict_location_cluster self f)) Hfloor).
  lra.
Qed.

Lemma viability_score_formula_sample :
  exists p,
    predict_ev_station_viability fallback_predictor (VDict sample_location)
      = Prediction p /\
    viability_score p ==
      viability_score_spec (annual_roi (roi p)) (cluster_id (location_type p)) /\
    0 <= viability_score p <= 100.
Proof.
  eexists. split; [vm_compute; reflexivity|].
  apply (viability_score_formula fallback_predictor (VDict sample_location)).
  vm_compute; reflexivity.
Defined.

(** ** Batches *)

(** One turn of the loop appends exactly one entry, tagged with the index
    of the turn, or escapes the loop. *)
Lemma batch_step_appends (p : EVStationPredictor) (i : nat) (location : value)
    (results out : list batch_entry) :
  batch_step p i location results = Ok out ->
  exists e, out = results ++ [e] /\ location_index e = i.
Proof.
  unfold batch_step, try_except.
  destruct location; cbn [obj_get mbind exc_bind mret exc_ret]; try done.
  intros [= <-]. eauto.
Qed.

Lemma batch_step_dict (p : EVStationPredictor) (i : nat) (d : gmap string value)
    (results : list batch_entry) :
  exists e, batch_step p i (VDict d) results = Ok (results ++ [e]).
Proof. unfold batch_step, try_except. cbn. eauto. Qed.

Lemma batch_loop_appends (p : EVStationPredictor) (locations : list value) :
  forall (i : nat) (results out : list batch_entry),
    batch_loop p i locations results = Ok out ->
    exists new,
      out = results ++ new /\
      length new = length locations /\
      forall j e, new !! j = Some e -> location_index e = (i + j)%nat.
Proof.
  induction locations as [|location locations IH]; intros i results out.
  - cbn. intros [= <-]. exists []. rewrite app_nil_r. by split.
  - cbn [batch_loop].
    destruct (batch_step p i location results) as [mid|] eqn:Hstep; [|done].
    cbn [mbind exc_bind]. intros Hloop.
    destruct (batch_step_appends _ _ _ _ _ Hstep) as (e & -> & Hi).
    destruct (IH _ _ _ Hloop) as (new & -> & Hlen & Hidx).
    exists (e :: new). rewrite <- app_assoc. split; [done|].
    split; [cbn; by rewrite Hlen|].
    intros [|j] e'; cbn.
    + intros [= <-]. lia.
    + intros Hj. rewrite (Hidx _ _ Hj). lia.
Qed.

Lemma batch_loop_dicts (p : EVStationPredictor) (locations : list value) :
  forallb is_dict locations = true ->
  forall (i : nat) (results : list batch_entry),
    exists out, batch_loop p i locations results = Ok out.
Proof.
  induction locations as [|location locations IH]; intros Hd i results.
  - cbn. eauto.
  - cbn in Hd. apply andb_true_iff in Hd as [Hd Hds].
    destruct location; try done.
    cbn [batch_loop].
    destruct (batch_step_dict p i d results) as (e & ->).
    cbn [mbind exc_bind]. by apply IH.
Qed.

Lemma batch_analyze_inv (ev_predictor : option EVStationPredictor)
    (data : value) (resp : batch_response) :
  batch_analyze ev_predictor data = Json resp ->
  exists p locations items out,
    ev_predictor = Some p /\
    getitem data "locations" = Ok locations /\
    iter locations = Ok items /\
    batch_loop p 0 items [] = Ok out /\
    resp = {| total_locations := length items;
              successful_analysis := length (List.filter no_error out);
              results := out |}.
Proof.
  unfold batch_analyze.
  destruct ev_predictor as [p|]; [|done].
  destruct (truthy data); cbn [negb]; [|done].
  destruct (contains data "locations") as [[|]|]; cbn [mbind exc_bind negb];
    try done.
  destruct (getitem data "locations") as [locations|] eqn:Hget;
    cbn [mbind exc_bind]; [|done].
  destruct (iter locations) as [items|] eqn:Hiter; cbn [mbind exc_bind]; [|done].
  destruct (batch_loop p 0 items []) as [out|] eqn:Hloop;
    cbn [mbind exc_bind mret exc_ret]; [|done].
  intros [= <-]. by exists p, locations, items, out.
Qed.

(** A batch of dicts is always answered. *)
Lemma batch_analyze_answers (p : EVStationPredictor) (locations : list value) :
  forallb is_dict locations = true ->
  exists resp, batch_analyze (Some p) (batch_request locations) = Json resp.
Proof.
  intros Hd. unfold batch_analyze, batch_request.
  cbn [truthy]. rewrite map_size_singleton. cbn [Nat.eqb negb contains].
  rewrite lookup_singleton_eq.
  rewrite bool_decide_eq_true_2 by eauto.
  cbn [mbind exc_bind negb getitem]. rewrite lookup_singleton_eq.
  cbn [iter mbind exc_bind].
  destruct (batch_loop_dicts p locations Hd 0%nat []) as (out & ->).
  cbn. eauto.
Qed.

(** C5.  Whenever [/batch_analyze] answers a batch, [results] has one entry
    per location, [total_locations] is that number, and
    [successful_analysis] is the number of entries of [results] without an
    ['error'] key. *)
Theorem batch_invariant (ev_predictor : option EVStationPredictor)
    (data : value) (resp : batch_response) :
  batch_analyze ev_predictor data = Json resp ->
  exists locations items,
    getitem data "locations" = Ok locations /\
    iter locations = Ok items /\
    length (results resp) = length items /\
    total_locations resp = length items /\
    successful_analysis resp = length (List.filter no_error (results resp)) /\
    (successful_analysis resp <= total_locations resp)%nat /\
    (forall j e, results resp !! j = Some e -> location_index e = j).
Proof.
  intros H.
  destruct (batch_analyze_inv _ _ _ H)
    as (p & locations & items & out & _ & Hget & Hiter & Hloop & ->).
  destruct (batch_loop_appends _ _ _ _ _ Hloop) as (new & -> & Hlen & Hidx).
  exists locations, items. cbn [results total_locations successful_analysis app].
  repeat split; try done.
  rewrite <- Hlen. apply List.filter_length_le.
Qed.

Lemma batch_invariant_sample :
  exists resp,
    batch_analyze (Some fallback_predictor) (batch_of_three "solar_potential")
      = Json resp /\
    exists locations items,
      getitem (batch_of_three "solar_potential") "locations" = Ok locations /\
      iter locations = Ok items /\
      length (results resp) = length items /\
      total_locations resp = length items /\
      successful_analysis resp = length (List.filter no_error (results resp)) /\
      (successful_analysis resp <= total_locations resp)%nat /\
      (forall j e, results resp !! j = Some e -> location_index e = j).
Proof.
  eexists. split; [vm_compute; reflexivity|].
  apply (batch_invariant (Some fallback_predictor) (batch_of_three "solar_potential")).
  vm_compute; reflexivity.
Defined.

(** Whether the pipeline ends in an error dict depends on the record alone,
    not on the registered models. *)
Lemma pipeline_error_iff (self : EVStationPredictor) (d : gmap string value) :
  has_error (predict_ev_station_viability self (VDict d)) = negb (analysable d).
Proof.
  unfold predict_ev_station_viability, analysable, numeric_at.
  cbn [obj_get mbind exc_bind].
  unfold prepare_ev_features, truediv, number.
  destruct (as_number (get d "daily_vehicles" (VNum 0))) as [v|];
    cbn [mbind exc_bind mret exc_ret]; [|done].
  destruct (as_number (get d "avg_income" (VNum 0))) as [a|];
    cbn [mbind exc_bind mret exc_ret]; [|done].
  destruct (as_number (get d "land_cost" (VNum 0))) as [l|];
    cbn [mbind exc_bind mret exc_ret]; [|done].
  unfold generate_station_recommendations, gt, lt, number.
  destruct (as_number (get d "solar_potential" (VNum 0))) as [s|];
    cbn [mbind exc_bind mret exc_ret]; [|done].
  destruct (as_number (get d "ev_adoption" (VNum 0))) as [e|];
    cbn [mbind exc_bind mret exc_ret]; [|done].
  rewrite !bool_decide_eq_true_2 by eauto. done.
Qed.

Lemma numeric_at_delete (d : gmap string value) (field k : string) :
  numeric_at d k = true -> numeric_at (delete field d) k = true.
Proof.
  unfold numeric_at, get. intros H.
  destruct (decide (field = k)) as [->|Hne].
  - rewrite lookup_delete_eq. by apply bool_decide_eq_true_2.
  - by rewrite lookup_delete_ne.
Qed.

(** Taking a key away from a record never turns its analysis into an error
    entry: the missing value is replaced by a numeric default. *)
Lemma delete_keeps_analysis (self : EVStationPredictor) (d : gmap string value)
    (field : string) :
  has_error (predict_ev_station_viability self (VDict d)) = false ->
  has_error (predict_ev_station_viability self (VDict (delete field d))) = false.
Proof.
  rewrite !pipeline_error_iff. unfold analysable.
  intros H. apply negb_false_iff in H. apply negb_false_iff.
  repeat (apply andb_true_iff in H as [H ?]).
  repeat (apply andb_true_iff; split); by apply numeric_at_delete.
Qed.

(** C6, what the code does.  [/batch_analyze] never checks the mandatory
    keys: a record lacking one of them is analysed with the default 0 in
    its place.  In a batch of three whose second record lacks a mandatory
    key all three entries are predictions and [successful_analysis] is 3,
    while [/predict] turns the same record down with status 400. *)
Theorem batch_analyses_record_without_mandatory_field :
  (second_record_analysed "daily_vehicles" /\
   second_record_analysed "population_density" /\
   second_record_analysed "avg_income") /\
  (second_record_rejected "daily_vehicles" /\
   second_record_rejected "population_density" /\
   second_record_rejected "avg_income").
Proof.
  split.
  - repeat split; unfold second_record_analysed;
      do 2 eexists; (split; [vm_compute; reflexivity|]); by repeat split.
  - repeat split; vm_compute; reflexivity.
Qed.

(** * Further properties of the code *)

(** ** The fallback path end to end *)

(** X1.  The five rules of the fallback add at most 14 to the base of 12,
    so its [min(base_roi, 35)] never changes the figure: the result is the
    plain sum and is at most 26. *)
Theorem fallback_cap_never_binds (f : features) (t i e c g : Q) :
  as_number (traffic_density f) = Some t ->
  as_number (income_level f) = Some i ->
  as_number (ev_adoption_rate f) = Some e ->
  as_number (competition_score f) = Some c ->
  as_number (government_subsidy f) = Some g ->
  exists base_roi,
    calculate_fallback_roi f = Ok base_roi /\
    base_roi == fallback_roi_sum t i e c g /\
    base_roi <= 26.
Proof.
  intros Ht Hi He Hc Hg.
  destruct (calculate_fallback_roi_numeric f t i e c g Ht Hi He Hc Hg)
    as (r & Hr & Hspec).
  exists r. split; [done|].
  pose proof (calculate_fallback_roi_range _ _ Hr) as Hrange.
  split; [|lra]. rewrite Hspec.
  unfold fallback_roi_spec, fallback_roi_sum.
  destruct (Qltb 5 t), (Qltb 75 i), (Qltb 20 e), (Qltb c 3), (Qltb 0 g);
    reflexivity.
Qed.

Lemma fallback_cap_never_binds_best :
  exists base_roi,
    calculate_fallback_roi best_features = Ok base_roi /\
    base_roi == fallback_roi_sum (15000 / 1000) (85000 / 1000) 25 2 30 /\
    base_roi <= 26.
Proof.
  apply (fallback_cap_never_binds best_features
           (15000 / 1000) (85000 / 1000) 25 2 30); reflexivity.
Defined.

Lemma adjusted_upper (base_roi : Q) (location_data : gmap string value) :
  adjusted base_roi location_data <= base_roi + 10.
Proof.
  rewrite adjusted_sum. unfold bonus.
  destruct (flag location_data "fast_charging"),
    (flag location_data "solar_powered"),
    (flag location_data "amenities"),
    (flag location_data "high_competition"),
    (flag location_data "high_land_cost"); lra.
Qed.

(** From a base of 12 on, the floor has nothing to lift. *)
Lemma adjust_roi_above_floor (base_roi : Q) (location_data : gmap string value) :
  12 <= base_roi ->
  adjust_roi base_roi location_data == base_roi + flag_adjustment location_data.
Proof.
  intros Hbase.
  pose proof (adjusted_lower base_roi location_data) as Hlow.
  pose proof (adjusted_sum base_roi location_data) as Hsum.
  unfold adjust_roi, flag_adjustment.
  destruct (builtin_max_spec (adjusted base_roi location_data) 5) as [[H ->] | [H ->]];
    lra.
Qed.

(** X2.  On the fallback path the floor of [adjust_roi] never lifts
    anything (the base is at least 12 and at most 7 is taken away), and the
    final figure lies between 5 and 36: the adjustments are applied after
    the cap at 35 and can carry the figure past it. *)
Theorem fallback_final_roi_range (f : features) (base_roi : Q)
    (location_data : gmap string value) :
  calculate_fallback_roi f = Ok base_roi ->
  adjust_roi base_roi location_data == base_roi + flag_adjustment location_data /\
  5 <= adjust_roi base_roi location_data <= 36.
Proof.
  intros Hr.
  pose proof (calculate_fallback_roi_range _ _ Hr) as Hrange.
  assert (12 <= base_roi) as Hbase by lra.
  pose proof (adjust_roi_above_floor base_roi location_data Hbase) as Heq.
  split; [done|].
  pose proof (adjust_roi_floor base_roi location_data) as Hfloor.
  pose proof (adjusted_upper base_roi location_data) as Hup.
  pose proof (adjusted_sum base_roi location_data) as Hsum.
  unfold flag_adjustment in Heq. lra.
Qed.

(** The upper end is reached. *)
Lemma fallback_final_roi_range_best :
  calculate_fallback_roi best_features = Ok 26 /\
  adjust_roi 26 best_location == 36 /\
  (adjust_roi 26 best_location == 26 + flag_adjustment best_location /\
   5 <= adjust_roi 26 best_location <= 36).
Proof.
  split; [reflexivity|]. split; [reflexivity|].
  apply (fallback_final_roi_range best_features 26 best_location).
  reflexivity.
Defined.












(** ** When the pipeline fails *)


(** ** The adjustment stage, continued *)

(** X6.  [adjust_roi] is monotone in the base figure and never stretches a
    difference: raising the base by some amount raises the result by at
    most that amount. *)
Theorem adjust_roi_monotone (base_roi base_roi' : Q)
    (location_data : gmap string value) :
  base_roi <= base_roi' ->
  adjust_roi base_roi location_data <= adjust_roi base_roi' location_data /\
  adjust_roi base_roi' location_data - adjust_roi base_roi location_data
    <= base_roi' - base_roi.
Proof.
  intros Hle. unfold adjust_roi.
  pose proof (adjusted_sum base_roi location_data) as Hs.
  pose proof (adjusted_sum base_roi' location_data) as Hs'.
  destruct (builtin_max_spec (adjusted base_roi location_data) 5) as [[H ->] | [H ->]];
    destruct (builtin_max_spec (adjusted base_roi' location_data) 5)
      as [[H' ->] | [H' ->]]; lra.
Qed.

Lemma adjust_roi_monotone_sample :
  adjust_roi 0 sample_location <= adjust_roi 19 sample_location /\
  adjust_roi 19 sample_location - adjust_roi 0 sample_location <= 19 - 0.
Proof.
  apply (adjust_roi_monotone 0 19 sample_location). vm_compute; discriminate.
Defined.

(** ** Payback and break-even *)




(** ** Revenue *)




(** ** Grade and risk *)

Ltac step_cases roi :=
  unfold get_investment_grade, get_risk_level;
  destruct (Qleb_reflect 25 roi), (Qleb_reflect 20 roi), (Qleb_reflect 15 roi),
    (Qleb_reflect 12 roi), (Qleb_reflect 10 roi), (Qleb_reflect 8 roi),
    (Qleb_reflect 5 roi).

(** X9.  The two step functions agree at their ends: the risk is "Low
    Risk" exactly for the grades A+ and A, the grade D always comes with
    "Very High Risk", and "Very High Risk" only goes with the grades C
    and D. *)
Theorem grade_risk_consistent (roi : Q) :
  (get_risk_level roi = "Low Risk" <->
   get_investment_grade roi = "A+ (Excellent)" \/
   get_investment_grade roi = "A (Very Good)") /\
  (get_investment_grade roi = "D (Poor)" -> get_risk_level roi = "Very High Risk") /\
  (get_risk_level roi = "Very High Risk" ->
   get_investment_grade roi = "C (Fair)" \/ get_investment_grade roi = "D (Poor)").
Proof.
  step_cases roi; try lra;
    (split; [split|split]); try done; try (intros [?|?]; done); eauto.
Qed.

(** X10.  A prediction carries the grade and the risk of its own annual
    figure, and, that figure being at least 5, the grade is never
    "D (Poor)". *)
Theorem pipeline_grade_never_poor (self : EVStationPredictor)
    (location_data : value) (p : prediction) :
  predict_ev_station_viability self location_data = Prediction p ->
  investment_grade p = get_investment_grade (annual_roi (roi p)) /\
  risk_level p = get_risk_level (annual_roi (roi p)) /\
  investment_grade p <> "D (Poor)".
Proof.
  intros Hp.
  destruct (predict_ev_station_viability_inv _ _ _ Hp)
    as (d & f & recs & _ & _ & _ & ->).
  cbn [investment_grade risk_level roi]. split; [done|]. split; [done|].
  destruct (predict_roi_sound self f d) as [Hfloor _].
  set (a := annual_roi (predict_roi self f d)) in *.
  step_cases a; try lra; done.
Qed.

Lemma pipeline_grade_never_poor_sample :
  exists p,
    predict_ev_station_viability bare_predictor (VDict sample_location)
      = Prediction p /\
    investment_grade p = get_investment_grade (annual_roi (roi p)) /\
    risk_level p = get_risk_level (annual_roi (roi p)) /\
    investment_grade p <> "D (Poor)".
Proof.
  eexists. split; [vm_compute; reflexivity|].
  apply (pipeline_grade_never_poor bare_predictor (VDict sample_location)).
  vm_compute; reflexivity.
Defined.

(** ** Recommendations *)

#[local] Instance recommendation_eq_dec : EqDecision recommendation.
Proof. solve_decision. Defined.

Lemma generate_station_recommendations_inv (r : roi_result) (c : cluster_result)
    (d : gmap string value) (recs : list recommendation) :
  generate_station_recommendations r c d = Ok recs ->
  exists s e,
    as_number (get d "solar_potential" (VNum 0)) = Some s /\
    as_number (get d "ev_adoption" (VNum 0)) = Some e /\
    recs =
      [ if Qltb 25 (annual_roi r) then PremiumInvestment
        else if Qltb 15 (annual_roi r) then StrongInvestment
        else if Qltb 8 (annual_roi r) then ModerateInvestment
        else EvaluateCarefully ] ++
      (if (cluster_id c =? 0)%Z then [InstallDCFastChargers; AddLoungeAmenities]
       else if (cluster_id c =? 1)%Z then [PartnerWithRetailers; FocusOnBusinessHours]
       else if (cluster_id c =? 3)%Z then [UltraFastCharging; AddFoodServices]
       else []) ++
      (if Qltb 70 s then [AddSolarCanopy] else []) ++
      (if Qltb e 10 then [CommunityEducation] else []).
Proof.
  unfold generate_station_recommendations, gt, lt, number.
  destruct (as_number (get d "solar_potential" _)) as [s|]; [|done].
  destruct (as_number (get d "ev_adoption" _)) as [e|]; [|done].
  cbn [mbind exc_bind mret exc_ret]. intros [= <-]. exists s, e.
  split; [done|]. split; [done|].
  destruct (Qltb 25 (annual_roi r)), (Qltb 15 (annual_roi r)),
    (Qltb 8 (annual_roi r)), (cluster_id c =? 0)%Z, (cluster_id c =? 1)%Z,
    (cluster_id c =? 3)%Z, (Qltb 70 s), (Qltb e 10); reflexivity.
Qed.

(** X11.  A list of recommendations starts with exactly one message of the
    ROI tier, holds no other tier message, has between one and five
    entries, never repeats one, and holds a cluster message only for the
    cluster ids 0, 1 and 3. *)
Theorem recommendations_shape (r : roi_result) (c : cluster_result)
    (d : gmap string value) (recs : list recommendation) :
  generate_station_recommendations r c d = Ok recs ->
  exists tier rest,
    recs = tier :: rest /\
    is_tier tier = true /\
    forallb (fun m => negb (is_tier m)) rest = true /\
    (length recs <= 5)%nat /\
    NoDup recs /\
    (existsb is_cluster_message recs = true <->
     cluster_id c = 0%Z \/ cluster_id c = 1%Z \/ cluster_id c = 3%Z).
Proof.
  intros H.
  destruct (generate_station_recommendations_inv _ _ _ _ H)
    as (s & e & _ & _ & ->).
  eexists _, _. split; [reflexivity|].
  destruct (Qltb 25 (annual_roi r)), (Qltb 15 (annual_roi r)),
    (Qltb 8 (annual_roi r)), (Qltb 70 s), (Qltb e 10);
    destruct (Z.eqb_spec (cluster_id c) 0), (Z.eqb_spec (cluster_id c) 1),
      (Z.eqb_spec (cluster_id c) 3);
    cbn; (repeat split; [lia | by apply (bool_decide_unpack _) | intros; lia || done ..]).
Qed.

Lemma recommendations_shape_sample :
  exists tier rest,
    [PremiumInvestment; AddSolarCanopy] = tier :: rest /\
    is_tier tier = true /\
    forallb (fun m => negb (is_tier m)) rest = true /\
    (length [PremiumInvestment; AddSolarCanopy] <= 5)%nat /\
    NoDup [PremiumInvestment; AddSolarCanopy] /\
    (existsb is_cluster_message [PremiumInvestment; AddSolarCanopy] = true <->
     cluster_id default_cluster_result = 0%Z \/
     cluster_id default_cluster_result = 1%Z \/
     cluster_id default_cluster_result = 3%Z).
Proof.
  apply (recommendations_shape
           (predict_roi fallback_predictor sample_features sample_location)
           default_cluster_result sample_location).
  vm_compute; reflexivity.
Defined.

(** X12.  The tier message and the grade use the same threshold of 25
    differently: the "Premium Investment" message asks for a figure above
    25, the grade A+ for one of at least 25.  The message implies the
    grade; a grade of A+ without the message happens at exactly 25, where
    the message is "Strong Investment". *)
Theorem premium_message_and_grade (r : roi_result) (c : cluster_result)
    (d : gmap string value) (recs : list recommendation) :
  generate_station_recommendations r c d = Ok recs ->
  (head recs = Some PremiumInvestment <-> 25 < annual_roi r) /\
  (head recs = Some PremiumInvestment ->
   get_investment_grade (annual_roi r) = "A+ (Excellent)") /\
  (get_investment_grade (annual_roi r) = "A+ (Excellent)" ->
   head recs <> Some PremiumInvestment ->
   annual_roi r == 25 /\ head recs = Some StrongInvestment).
Proof.
  intros H.
  destruct (generate_station_recommendations_inv _ _ _ _ H)
    as (s & e & _ & _ & ->).
  cbn [app head]. unfold get_investment_grade.
  destruct (Qltb_reflect 25 (annual_roi r)), (Qltb_reflect 15 (annual_roi r)),
    (Qltb_reflect 8 (annual_roi r)), (Qleb_reflect 25 (annual_roi r)),
    (Qleb_reflect 20 (annual_roi r)), (Qleb_reflect 15 (annual_roi r)),
    (Qleb_reflect 10 (annual_roi r)), (Qleb_reflect 5 (annual_roi r));
    try lra; (split; [split|split]); try done; intros; try lra.
  split; [lra | done].
Qed.

Lemma premium_message_and_grade_sample :
  (head [PremiumInvestment; AddSolarCanopy] = Some PremiumInvestment <->
   25 < annual_roi (predict_roi fallback_predictor sample_features sample_location)) /\
  (head [PremiumInvestment; AddSolarCanopy] = Some PremiumInvestment ->
   get_investment_grade
     (annual_roi (predict_roi fallback_predictor sample_features sample_location))
   = "A+ (Excellent)") /\
  (get_investment_grade
     (annual_roi (predict_roi fallback_predictor sample_features sample_location))
   = "A+ (Excellent)" ->
   head [PremiumInvestment; AddSolarCanopy] <> Some PremiumInvestment ->
   annual_roi (predict_roi fallback_predictor sample_features sample_location) == 25 /\
   head [PremiumInvestment; AddSolarCanopy] = Some StrongInvestment).
Proof.
  apply (premium_message_and_grade
           (predict_roi fallback_predictor sample_features sample_location)
           default_cluster_result sample_location).
  vm_compute; reflexivity.
Defined.

(** ** The viability score, continued *)

(** X13.  The ROI part of the score is at most 50 and the cluster part at
    most 45, so the outer [min(..., 100)] of [calculate_viability_score]
    never changes anything: for every ROI dict and cluster dict the score
    is the plain sum of the two parts, and at most 95. *)
Theorem viability_cap_never_binds (r : roi_result) (c : cluster_result) :
  calculate_viability_score r c ==
    Qmin (annual_roi r * 2) 50 + cluster_score_spec (cluster_id c) /\
  calculate_viability_score r c <= 95.
Proof.
  pose proof (calculate_viability_score_spec r c) as Hspec.
  unfold viability_score_spec in Hspec.
  pose proof (cluster_score_spec_range (cluster_id c)) as Hs.
  set (s := cluster_score_spec (cluster_id c)) in *.
  destruct (Q.min_spec (annual_roi r * 2) 50) as [[H2 E2] | [H2 E2]];
    destruct (Q.min_spec (Qmin (annual_roi r * 2) 50 + s) 100) as [[H4 E4] | [H4 E4]];
    rewrite E4 in Hspec; split; lra.
Qed.

(** X14.  With no clusterer registered, or with the never-fitted fallback
    clusterer, every prediction has cluster id 2, hence a score of
    [min(annual_roi * 2, 50) + 30], between 40 and 80, and no cluster
    message among its recommendations. *)
Theorem default_cluster_viability (self : EVStationPredictor)
    (location_data : value) (p : prediction) :
  location_cluster self = None \/ location_cluster self = Some KMeansUnfitted ->
  predict_ev_station_viability self location_data = Prediction p ->
  location_type p = default_cluster_result /\
  viability_score p == Qmin (annual_roi (roi p) * 2) 50 + 30 /\
  40 <= viability_score p <= 80 /\
  existsb is_cluster_message (recommendations p) = false.
Proof.
  intros Hm Hp.
  destruct (predict_ev_station_viability_inv _ _ _ Hp)
    as (d & f & recs & _ & _ & Hrecs & ->).
  cbn [location_type viability_score roi recommendations].
  assert (predict_location_cluster self f = default_cluster_result) as Hc.
  { unfold predict_location_cluster. by destruct Hm as [-> | ->]. }
  rewrite Hc in *. split; [done|].
  assert (existsb is_cluster_message recs = false) as Hnone.
  { destruct (generate_station_recommendations_inv _ _ _ _ Hrecs)
      as (s & e & _ & _ & ->).
    clear. cbn [cluster_id default_cluster_result Z.eqb Pos.eqb app].
    set (a := annual_roi (predict_roi self f d)).
    by destruct (Qltb 25 a), (Qltb 15 a), (Qltb 8 a), (Qltb 70 s), (Qltb e 10). }
  pose proof (calculate_viability_score_spec (predict_roi self f d)
                default_cluster_result) as Hspec.
  unfold viability_score_spec in Hspec.
  change (cluster_score_spec (cluster_id default_cluster_result)) with 30 in Hspec.
  destruct (predict_roi_sound self f d) as [Hfloor _].
  set (a := annual_roi (predict_roi self f d)) in *.
  destruct (Q.min_spec (a * 2) 50) as [[H2 E2] | [H2 E2]];
    destruct (Q.min_spec (Qmin (a * 2) 50 + 30) 100) as [[H4 E4] | [H4 E4]];
    rewrite E4 in Hspec; (split; [lra|]); (split; [lra | done]).
Qed.

Lemma default_cluster_viability_sample :
  exists p,
    predict_ev_station_viability fallback_predictor (VDict sample_location)
      = Prediction p /\
    location_type p = default_cluster_result /\
    viability_score p == Qmin (annual_roi (roi p) * 2) 50 + 30 /\
    40 <= viability_score p <= 80 /\
    existsb is_cluster_message (recommendations p) = false.
Proof.
  eexists. split; [vm_compute; reflexivity|].
  apply (default_cluster_viability fallback_predictor (VDict sample_location));
    [right; reflexivity | vm_compute; reflexivity].
Defined.

(** ** The single-record endpoint *)

Lemma missing_fields_dict (d : gmap string value) (fields : list string) :
  missing_fields (VDict d) fields = Ok (List.filter (absent d) fields).
Proof.
  induction fields as [|field fields IH]; [done|].
  cbn [missing_fields contains mbind exc_bind]. rewrite IH.
  cbn [mbind exc_bind mret exc_ret List.filter]. unfold absent.
  by destruct (bool_decide (is_Some (d !! field))).
Qed.

Lemma truthy_dict (d : gmap string value) :
  truthy (VDict d) = negb (Nat.eqb (size d) 0).
Proof. done. Qed.


(** X15.  On a JSON object [/predict] answers in one of three ways, and
    never with status 500: "no data" for the empty object, status 400 with
    exactly the mandatory keys that are absent, in their fixed order, or
    status 200 with what the pipeline returned and the location name. *)
Theorem predict_endpoint_on_dict (p : EVStationPredictor) (d : gmap string value) :
  predict_ev_station (Some p) (VDict d) =
    if Nat.eqb (size d) 0
    then Failed 400 (Message "No location data provided")
    else
      match List.filter (absent d) required_fields with
      | [] =>
          Json (predict_ev_station_viability p (VDict d),
                get d "location_name" (VStr "Unknown Location"))
      | missing => Failed 400 (MissingFields missing required_fields)
      end.
Proof.
  unfold predict_ev_station. rewrite truthy_dict.
  destruct (Nat.eqb (size d) 0); cbn [negb]; [done|].
  rewrite missing_fields_dict. cbn [mbind exc_bind].
  by destruct (List.filter (absent d) required_fields).
Qed.



(** X17.  A JSON array that contains the three mandatory names as strings
    passes the required-field check, which only asks for membership; the
    request then fails with status 500, because after the pipeline has
    returned its error dict the endpoint calls [get] on the array. *)
Theorem predict_endpoint_on_name_list (p : EVStationPredictor) (l : list value) :
  existsb (is_str "daily_vehicles") l = true ->
  existsb (is_str "population_density") l = true ->
  existsb (is_str "avg_income") l = true ->
  predict_ev_station (Some p) (VList l) = Failed 500 (Exception AttributeError).
Proof.
  intros Hv Hp Ha. unfold predict_ev_station.
  destruct l as [|x l]; [done|]. cbn [truthy negb].
  cbn [missing_fields required_fields contains mbind exc_bind mret exc_ret].
  by rewrite Hv, Hp, Ha.
Qed.

Lemma predict_endpoint_on_name_list_sample :
  predict_ev_station (Some fallback_predictor) (VList names_only)
    = Failed 500 (Exception AttributeError).
Proof.
  apply (predict_endpoint_on_name_list fallback_predictor names_only);
    reflexivity.
Defined.

(** ** The batch endpoint, continued *)

Lemma batch_step_on_dict (p : EVStationPredictor) (i : nat) (d : gmap string value)
    (results : list batch_entry) :
  batch_step p i (VDict d) results = Ok (results ++ [batch_entry_of p i d]).
Proof. done. Qed.

Lemma batch_step_not_dict (p : EVStationPredictor) (i : nat) (location : value)
    (results : list batch_entry) :
  is_dict location = false ->
  batch_step p i location results = Raise AttributeError.
Proof. by destruct location. Qed.

Lemma batch_loop_not_dicts (p : EVStationPredictor) (locations : list value) :
  forallb is_dict locations = false ->
  forall (i : nat) (results : list batch_entry),
    batch_loop p i locations results = Raise AttributeError.
Proof.
  induction locations as [|location locations IH]; [done|].
  intros Hd i results. cbn [batch_loop].
  destruct (is_dict location) eqn:Hloc.
  - destruct location; try done. rewrite batch_step_on_dict.
    cbn [mbind exc_bind]. apply IH. by cbn in Hd.
  - by rewrite batch_step_not_dict.
Qed.

Lemma batch_request_unfold (p : EVStationPredictor) (locations : list value) :
  batch_analyze (Some p) (batch_request locations) =
    match batch_loop p 0 locations [] with
    | Ok out =>
        Json {| total_locations := length locations;
                successful_analysis := length (List.filter no_error out);
                results := out |}
    | Raise e => Failed 500 (Exception e)
    end.
Proof.
  unfold batch_analyze, batch_request.
  cbn [truthy]. rewrite map_size_singleton. cbn [Nat.eqb negb contains].
  rewrite lookup_singleton_eq.
  rewrite bool_decide_eq_true_2 by eauto.
  cbn [mbind exc_bind negb getitem]. rewrite lookup_singleton_eq.
  cbn [iter mbind exc_bind].
  by destruct (batch_loop p 0 locations []).
Qed.

(** X18.  A batch is answered with results exactly when every location is
    a JSON object.  One location of any other type, wherever it stands,
    makes the handler of the loop raise in its turn: the whole request
    ends with status 500 and the results computed so far are dropped. *)
Theorem batch_all_or_nothing (p : EVStationPredictor) (locations : list value) :
  (forallb is_dict locations = true ->
   exists resp, batch_analyze (Some p) (batch_request locations) = Json resp) /\
  (forallb is_dict locations = false ->
   batch_analyze (Some p) (batch_request locations)
     = Failed 500 (Exception AttributeError)).
Proof.
  split; intros Hd; rewrite batch_request_unfold.
  - destruct (batch_loop_dicts p locations Hd 0%nat []) as (out & ->). eauto.
  - by rewrite batch_loop_not_dicts.
Qed.

Lemma batch_all_or_nothing_sample :
  (exists resp,
      batch_analyze (Some fallback_predictor) (batch_request batch_with_odd_income)
        = Json resp) /\
  batch_analyze (Some fallback_predictor) (batch_request batch_with_stray_number)
    = Failed 500 (Exception AttributeError).
Proof.
  split.
  - apply (batch_all_or_nothing fallback_predictor batch_with_odd_income).
    reflexivity.
  - apply (batch_all_or_nothing fallback_predictor batch_with_stray_number).
    reflexivity.
Defined.

Lemma batch_loop_entries (p : EVStationPredictor) (locations : list value) :
  forall (i : nat) (results out : list batch_entry),
    batch_loop p i locations results = Ok out ->
    exists new,
      out = results ++ new /\
      length new = length locations /\
      (forall j d, locations !! j = Some (VDict d) ->
                   new !! j = Some (batch_entry_of p (i + j) d)) /\
      length (List.filter no_error new)
        = length (List.filter analysable_value locations).
Proof.
  induction locations as [|location locations IH]; intros i results out.
  - cbn. intros [= <-]. exists []. by rewrite app_nil_r.
  - cbn [batch_loop].
    destruct (is_dict location) eqn:Hloc;
      [|by rewrite batch_step_not_dict].
    destruct location as [| | | | |d]; try done.
    rewrite batch_step_on_dict. cbn [mbind exc_bind]. intros Hloop.
    destruct (IH _ _ _ Hloop) as (new & -> & Hlen & Hidx & Hcount).
    exists (batch_entry_of p i d :: new). rewrite <- app_assoc.
    split; [done|]. split; [cbn; by rewrite Hlen|]. split.
    + intros [|j] d' Hj.
      * injection Hj as <-. by rewrite Nat.add_0_r.
      * replace (i + S j)%nat with (S i + j)%nat by lia.
        exact (Hidx j d' Hj).
    + cbn [List.filter analysable_value]. unfold no_error at 1.
      cbn [entry batch_entry_of]. rewrite pipeline_error_iff, negb_involutive.
      destruct (analysable d); cbn [length]; by rewrite Hcount.
Qed.

(** X19.  In an answered batch the entry at each position is the result of
    the pipeline on the location at that position, tagged with the position
    and with the location's name, or "Location_" followed by the position
    when it has none. *)
Theorem batch_results_positional (p : EVStationPredictor)
    (locations : list value) (resp : batch_response) :
  batch_analyze (Some p) (batch_request locations) = Json resp ->
  forall j d,
    locations !! j = Some (VDict d) ->
    results resp !! j =
      Some {| entry := predict_ev_station_viability p (VDict d);
              location_index := j;
              location_name := get d "location_name" (VStr ("Location_" +:+ pretty j)) |}.
Proof.
  rewrite batch_request_unfold.
  destruct (batch_loop p 0 locations []) as [out|] eqn:Hloop; [|done].
  intros [= <-] j d Hj. cbn [results].
  destruct (batch_loop_entries _ _ _ _ _ Hloop) as (new & -> & _ & Hidx & _).
  exact (Hidx j d Hj).
Qed.

Lemma batch_results_positional_sample :
  exists resp,
    batch_analyze (Some fallback_predictor) (batch_request batch_with_odd_income)
      = Json resp /\
    results resp !! 1%nat =
      Some {| entry := predict_ev_station_viability fallback_predictor
                         (VDict odd_income_location);
              location_index := 1;
              location_name :=
                get odd_income_location "location_name"
                  (VStr ("Location_" +:+ pretty 1%nat)) |}.
Proof.
  eexists. split; [vm_compute; reflexivity|].
  apply (batch_results_positional fallback_predictor batch_with_odd_income);
    vm_compute; reflexivity.
Defined.



(** ** Features *)


(** ** Registered models *)

(** X22.  After start-up one model is registered for each artifact file
    that is on disk, readable or not, and none for a file that is absent:
    [/health] reports that number (and "healthy" even when it is 0), and
    [/models] lists as many entries, each with status "loaded". *)
Theorem registered_models_count (pickled_type : string)
    (xgb : artifact (list value -> exc Q)) (pkl : artifact (list value -> exc Z)) :
  health_check (Some (init xgb pkl)) = ("healthy", (on_disk xgb + on_disk pkl)%nat) /\
  exists models_info,
    list_models pickled_type (Some (init xgb pkl))
      = Json (models_info, (on_disk xgb + on_disk pkl)%nat) /\
    length models_info = (on_disk xgb + on_disk pkl)%nat /\
    Forall (fun m => m.2.2 = "loaded") models_info.
Proof.
  unfold health_check, list_models, models_len, get_model_info.
  rewrite init_roi_predictor, init_location_cluster.
  destruct xgb, pkl; cbn; (split; [done|]); eexists; (split; [done|]);
    (split; [done|]); repeat constructor.
Qed.


(** ** The demand endpoint *)

Lemma demand_row_complete (d : gmap string value) (fields : list string) :
  List.filter (absent d) fields = [] ->
  demand_row (VDict d) fields = Ok ((fun k => default VNone (d !! k)) <$> fields).
Proof.
  induction fields as [|field fields IH]; [done|].
  cbn [List.filter]. unfold absent at 1.
  destruct (d !! field) as [v|] eqn:Hv.
  - rewrite bool_decide_eq_true_2 by eauto. cbn [negb]. intros H.
    cbn [demand_row getitem]. rewrite Hv. cbn [mbind exc_bind].
    rewrite (IH H). cbn [mbind exc_bind mret exc_ret fmap list_fmap].
    by rewrite Hv.
  - rewrite bool_decide_eq_false_2 by (by intros [? ?]). done.
Qed.

(** X23.  On a JSON object [/predict_demand] asks the model only when all
    four keys are there, and then with their values in the fixed order
    daily vehicles, population density, income, EV adoption.  Otherwise it
    answers with status 400, naming exactly the absent keys; what the
    model raises becomes status 500. *)
Theorem predict_demand_on_dict (predict : list value -> exc Q)
    (d : gmap string value) :
  predict_ev_demand (Some predict) (VDict d) =
    if Nat.eqb (size d) 0
    then Failed 400 (Message "No demand data provided")
    else
      match List.filter (absent d) demand_required_fields with
      | [] =>
          match predict ((fun k => default VNone (d !! k)) <$> demand_required_fields) with
          | Ok predicted_demand => Json (predicted_demand, VDict d)
          | Raise e => Failed 500 (Exception e)
          end
      | missing => Failed 400 (MissingFields missing demand_required_fields)
      end.
Proof.
  unfold predict_ev_demand. rewrite truthy_dict.
  destruct (Nat.eqb (size d) 0); cbn [negb]; [done|].
  rewrite missing_fields_dict. cbn [mbind exc_bind].
  destruct (List.filter (absent d) demand_required_fields) eqn:Hmiss; [|done].
  rewrite (demand_row_complete d _ Hmiss). cbn [mbind exc_bind].
  by destruct (predict _).
Qed.

(** ** The ROI calculator of the dashboard *)





